(** * E-commerce dashboard: the aggregation transforms of [dashboard/dashboard.py]

    A shallow embedding of the date filter and of the four pandas pipelines
    ([create_daily_orders_df], [create_total_customer_by_city_df],
    [create_product_category_sales_df], [create_rfm_df]) together with the
    properties the specification states about them.

    Conventions of the embedding:
    - a data frame is the list of its rows, in row order;
    - a timestamp is the number of seconds since 1970-01-01 00:00:00 (the
      data set carries whole seconds), a calendar date is the number of days
      since 1970-01-01;
    - a missing cell (NaN / NaT / None) is [None]; the identifier columns,
      which the code groups by or counts, and the geolocation columns are
      optional;
    - prices and coordinates are exact rationals, where pandas has binary64
      numbers. Nothing below relies on a sum or a mean being exact: no
      equality is stated between sums taken in different groupings, and no
      bound on a mean. [sum_f64] shows on binary64 numbers why. *)

From Stdlib Require Import List NArith ZArith QArith String Ascii Bool Lia Lqa.
From Stdlib Require Import Permutation Sorted RelationClasses Morphisms.
From Stdlib Require Import OrdersEx DecimalString DecimalN PrimFloat.
Import ListNotations.

Local Open Scope Z_scope.

(** ** Calendar dates and timestamps *)

(** Days since 1970-01-01 of the proleptic Gregorian date [y]-[m]-[d]. *)
Definition days_from_civil (y m d : Z) : Z :=
  let y' := if m <=? 2 then y - 1 else y in
  let era := y' / 400 in
  let yoe := y' - era * 400 in
  let mp := if m <=? 2 then m + 9 else m - 3 in
  let doy := (153 * mp + 2) / 5 + d - 1 in
  let doe := yoe * 365 + yoe / 4 - yoe / 100 + doy in
  era * 146097 + doe - 719468.

Definition seconds_per_day : Z := 86400.

(** [pd.Timestamp("y-m-d hh:mm:ss")]. *)
Definition Timestamp (y m d hh mm ss : Z) : Z :=
  days_from_civil y m d * seconds_per_day + hh * 3600 + mm * 60 + ss.

(** [Series.dt.date]: the calendar day a timestamp falls on. *)
Definition dt_date (ts : Z) : Z := ts / seconds_per_day.

(** [Series.dt.days] of a timedelta: whole days, rounded towards minus
    infinity. *)
Definition dt_days (delta : Z) : Z := delta / seconds_per_day.

(** ** Input rows *)

Record Row : Type := mkRow {
  order_id : option string;
  customer_unique_id : option string;
  customer_city : option string;
  product_id : option string;
  product_category_name_english : option string;
  price : Q;
  freight_value : Q;
  geolocation_lat : option Q;
  geolocation_lng : option Q;
  order_purchase_timestamp : Z
}.

Definition DataFrame : Type := list Row.

Definition purchase_date (r : Row) : Z := dt_date (order_purchase_timestamp r).

(** ** Date filter (lines 114-117)

    [df[(df.ts.dt.date >= start_date) & (df.ts.dt.date <= end_date)]] *)
Definition main_df (start_date end_date : Z) (df : DataFrame) : DataFrame :=
  filter (fun r => (start_date <=? purchase_date r) && (purchase_date r <=? end_date)) df.

(** ** Column helpers *)

(** Drop the missing cells of a column. *)
Fixpoint dropna {A : Type} (l : list (option A)) : list A :=
  match l with
  | [] => []
  | None :: t => dropna t
  | Some x :: t => x :: dropna t
  end.

(** [Series.nunique()]: the number of distinct values of a column, the
    missing cells left aside (the default [dropna=True]). *)
Definition nunique (l : list (option string)) : nat :=
  List.length (nodup string_dec (dropna l)).

(** [Series.sum()]. *)
Definition sum_Q (l : list Q) : Q := fold_right Qplus 0%Q l.

(** [Series.sum()] on binary64 numbers, added up in row order. *)
Definition sum_f64 (l : list float) : float := fold_left PrimFloat.add l 0%float.

(** [Series.mean()], which skips missing cells and is NaN when none is left. *)
Definition mean_Q (l : list (option Q)) : option Q :=
  match dropna l with
  | [] => None
  | xs => Some (sum_Q xs / inject_Z (Z.of_nat (List.length xs)))%Q
  end.

(** [Series.max()] of a timestamp column; NaT on an empty column. *)
Definition max_ts (l : list Z) : option Z :=
  match l with
  | [] => None
  | x :: t => Some (fold_left Z.max t x)
  end.

Definition sum_nat (l : list nat) : nat := fold_right Nat.add 0%nat l.

(** ** groupby

    [df.groupby(by=col)] drops the rows whose key is missing and yields the
    groups in ascending key order (the defaults [dropna=True], [sort=True]);
    inside a group the rows keep their order. Keys are compared character
    by character, as Python compares strings. *)

Definition str_lt (a b : string) : Prop := String_as_OT.compare a b = Lt.

Fixpoint insert_key (k : string) (l : list string) : list string :=
  match l with
  | [] => [k]
  | h :: t =>
      match String_as_OT.compare k h with
      | Lt => k :: l
      | Eq => l
      | Gt => h :: insert_key k t
      end
  end.

(** The distinct values of a column, ascending. *)
Definition unique_sorted (l : list string) : list string :=
  fold_right insert_key [] l.

Definition key_is (k : string) (c : option string) : bool :=
  match c with
  | Some k' => String.eqb k k'
  | None => false
  end.

Definition group_keys (by_ : Row -> option string) (df : DataFrame) : list string :=
  unique_sorted (dropna (map by_ df)).

Definition get_group (by_ : Row -> option string) (k : string) (df : DataFrame) : DataFrame :=
  filter (fun r => key_is k (by_ r)) df.

Definition groupby (by_ : Row -> option string) (df : DataFrame)
  : list (string * DataFrame) :=
  map (fun k => (k, get_group by_ k df)) (group_keys by_ df).

(** ** resample

    [df.resample(rule="D", on=col)] makes one bin per calendar day from the
    day of the earliest timestamp to the day of the latest one, the days
    without a row included; an empty frame has no bin. *)

Definition day_range (lo hi : Z) : list Z :=
  map (fun i => lo + Z.of_nat i) (seq 0 (Z.to_nat (hi - lo + 1))).

Definition min_day (d0 : Z) (l : list Z) : Z := fold_left Z.min l d0.
Definition max_day (d0 : Z) (l : list Z) : Z := fold_left Z.max l d0.

Definition on_day (d : Z) (df : DataFrame) : DataFrame :=
  filter (fun r => purchase_date r =? d) df.

Definition resample_D (df : DataFrame) : list (Z * DataFrame) :=
  match map purchase_date df with
  | [] => []
  | d0 :: ds =>
      map (fun d => (d, on_day d df)) (day_range (min_day d0 ds) (max_day d0 ds))
  end.

(** ** Daily orders (lines 11-20) *)

Record DailyRow : Type := mkDaily {
  order_date : Z;
  order_count : nat;
  revenue : Q
}.

Definition agg_daily (bin : Z * DataFrame) : DailyRow :=
  {| order_date := fst bin;
     order_count := nunique (map order_id (snd bin));
     revenue := sum_Q (map price (snd bin)) |}.

Definition create_daily_orders_df (df : DataFrame) : list DailyRow :=
  map agg_daily (resample_D df).

(** ** sort_values

    [DataFrame.sort_values(by=col, ascending=False)] is called with the
    default [kind="quicksort"], which pandas documents as not stable. The
    library's sort is therefore an interface: an operation, and the two
    facts every sort kind guarantees. What it does with equal keys is left
    open. *)

Class SortValues : Type :=
  sort_values_desc : forall A : Type, (A -> nat) -> list A -> list A.

Definition descending {A : Type} (key : A -> nat) (l : list A) : Prop :=
  StronglySorted (fun x y => (key y <= key x)%nat) l.

Class SortValuesSpec (sv : SortValues) : Prop := {
  sort_values_perm :
    forall (A : Type) (key : A -> nat) (l : list A),
      Permutation (sort_values_desc A key l) l;
  sort_values_sorted :
    forall (A : Type) (key : A -> nat) (l : list A),
      descending key (sort_values_desc A key l)
}.

(** Two sort kinds, both within the interface. The first keeps rows with
    equal keys in their order (what [kind="stable"] does), the second turns
    them around. *)

Fixpoint insert_stable {A : Type} (key : A -> nat) (x : A) (l : list A) : list A :=
  match l with
  | [] => [x]
  | h :: t => if (key x <? key h)%nat then h :: insert_stable key x t else x :: l
  end.

Definition stable_sort : SortValues :=
  fun A key l => fold_right (insert_stable key) [] l.

Fixpoint insert_after_ties {A : Type} (key : A -> nat) (x : A) (l : list A) : list A :=
  match l with
  | [] => [x]
  | h :: t => if (key x <=? key h)%nat then h :: insert_after_ties key x t else x :: l
  end.

Definition tie_reversing_sort : SortValues :=
  fun A key l => fold_right (insert_after_ties key) [] l.

(** ** Customers by city (lines 23-38) *)

Record CityRow : Type := mkCity {
  city : string;
  mean_lat : option Q;
  mean_lng : option Q;
  total_customer : nat
}.

Definition agg_city (g : string * DataFrame) : CityRow :=
  {| city := fst g;
     mean_lat := mean_Q (map geolocation_lat (snd g));
     mean_lng := mean_Q (map geolocation_lng (snd g));
     total_customer := nunique (map customer_unique_id (snd g)) |}.

Definition create_total_customer_by_city_df {sv : SortValues} (df : DataFrame)
  : list CityRow :=
  sort_values_desc CityRow total_customer (map agg_city (groupby customer_city df)).

(** ** Product category sales (lines 41-54) *)

Record CategoryRow : Type := mkCategory {
  category : string;
  total_product : nat;
  total_order : nat;
  total_price : Q;
  total_freight : Q
}.

Definition agg_category (g : string * DataFrame) : CategoryRow :=
  {| category := fst g;
     total_product := nunique (map product_id (snd g));
     total_order := nunique (map order_id (snd g));
     total_price := sum_Q (map price (snd g));
     total_freight := sum_Q (map freight_value (snd g)) |}.

Definition create_product_category_sales_df {sv : SortValues} (df : DataFrame)
  : list CategoryRow :=
  sort_values_desc CategoryRow total_order
    (map agg_category (groupby product_category_name_english df)).

(** ** RFM (lines 57-80) *)

Record RfmRow : Type := mkRfm {
  rfm_customer_unique_id : option string;
  recency : option Z;
  frequency : option nat;
  monetary : option Q;
  customer_label_id : option string
}.

(** [pd.Timestamp("2018-09-03 09:06:57")] (line 66). *)
Definition latest_date : Z := Timestamp 2018 9 3 9 6 57.

(** [str(i)] for a non-negative integer. *)
Definition str (i : N) : string := NilEmpty.string_of_uint (N.to_uint i).

(** The length of the label column (line 78). *)
Definition label_count : N := 95420.

(** The cell at index [i] of ["C" + pd.Series(np.arange(95420).astype(str))];
    there is none from 95420 on. *)
Definition label_series (i : N) : option string :=
  if (i <? label_count)%N then Some ("C" ++ str i)%string else None.

(** The rows of a frame with their positions [start], [start]+1, ... (the
    [RangeIndex] that [as_index=False] leaves on the grouped frame). *)
Fixpoint with_index {A : Type} (start : N) (l : list A) : list (N * A) :=
  match l with
  | [] => []
  | x :: t => (start, x) :: with_index (N.succ start) t
  end.

(** One RFM row: the aggregation (lines 58-64), the recency (lines 67-69),
    and the label, which the column assignment of line 78 aligns on the
    index: position [i] receives cell [i] of the label column, or a missing
    value when the column has no such cell. *)
Definition rfm_row (ig : N * (string * DataFrame)) : RfmRow :=
  let g := snd (snd ig) in
  {| rfm_customer_unique_id := Some (fst (snd ig));
     recency := option_map (fun latest => dt_days (latest_date - latest))
                  (max_ts (map order_purchase_timestamp g));
     frequency := Some (nunique (map order_id g));
     monetary := Some (sum_Q (map price g));
     customer_label_id := label_series (fst ig) |}.

(** A row that has a label and nothing else. *)
Definition label_only_row (i : N) : RfmRow :=
  {| rfm_customer_unique_id := None;
     recency := None;
     frequency := None;
     monetary := None;
     customer_label_id := label_series i |}.

(** When the grouped frame has no row, the column assignment of line 78
    gives the frame the index of the label column: the table then has
    95420 rows, missing in every column but the label. *)
Definition create_rfm_df (df : DataFrame) : list RfmRow :=
  match groupby customer_unique_id df with
  | [] => map (fun i => label_only_row (N.of_nat i)) (seq 0 (N.to_nat label_count))
  | grouped => map rfm_row (with_index 0 grouped)
  end.

(** ** Vocabulary of the specification *)

(** [l] is a subsequence of [m]: some rows of [m], in the order of [m]. *)
Inductive subseq {A : Type} : list A -> list A -> Prop :=
| subseq_nil : subseq [] []
| subseq_skip : forall x l m, subseq l m -> subseq l (x :: m)
| subseq_keep : forall x l m, subseq l m -> subseq (x :: l) (x :: m).

(** The purchase date of [r] lies in the inclusive range. *)
Definition in_range (s e : Z) (r : Row) : Prop :=
  s <= purchase_date r <= e.

(** [latest] is the latest purchase timestamp among the rows of customer [c]. *)
Definition latest_purchase (df : DataFrame) (c : string) (latest : Z) : Prop :=
  (exists r, In r df /\ customer_unique_id r = Some c
             /\ order_purchase_timestamp r = latest) /\
  (forall r, In r df -> customer_unique_id r = Some c ->
             order_purchase_timestamp r <= latest).

(** Seconds since midnight. *)
Definition time_of_day (ts : Z) : Z := ts - dt_date ts * seconds_per_day.

(** Rows that carry the same order id carry the same purchase date. *)
Definition one_date_per_order (df : DataFrame) : Prop :=
  forall r r' o, In r df -> In r' df -> order_id r = Some o -> order_id r' = Some o ->
                 purchase_date r = purchase_date r'.

(** Every customer of the frame is attributed to exactly one city: one of
    the customer's rows names a city, and none names another. A row of the
    customer that names no city attributes nothing. *)
Definition one_city_per_customer (df : DataFrame) : Prop :=
  forall r c, In r df -> customer_unique_id r = Some c ->
    exists k,
      (exists r0, In r0 df /\ customer_unique_id r0 = Some c
                  /\ customer_city r0 = Some k) /\
      forall r' k', In r' df -> customer_unique_id r' = Some c ->
                    customer_city r' = Some k' -> k' = k.

(** [n] is the number of distinct values present in the column [ids]. *)
Definition counts_distinct (ids : list (option string)) (n : nat) : Prop :=
  exists l, NoDup l /\ (forall x, In x l <-> In (Some x) ids) /\ List.length l = n.

(** Some row of the frame has a customer id. *)
Definition some_customer (df : DataFrame) : Prop :=
  exists r c, In r df /\ customer_unique_id r = Some c.

(** The position of the first row of [df] whose key is [k]. *)
Fixpoint first_index (by_ : Row -> option string) (k : string) (df : DataFrame) : nat :=
  match df with
  | [] => 0
  | r :: t => if key_is k (by_ r) then 0 else S (first_index by_ k t)
  end.

(** Rows of the table [t] with equal counts stand in the order in which
    their groups are first met in [df]. *)
Definition ties_in_encounter_order {A : Type} (name : A -> string) (count : A -> nat)
    (by_ : Row -> option string) (df : DataFrame) (t : list A) : Prop :=
  forall i j a b,
    (i < j)%nat -> nth_error t i = Some a -> nth_error t j = Some b ->
    count a = count b ->
    (first_index by_ (name a) df < first_index by_ (name b) df)%nat.

(** Rows of the sorted table with equal counts stand in the order they had
    in the table [t0] before the sort. *)
Definition ties_keep_order {A : Type} (count : A -> nat) (t0 t : list A) : Prop :=
  forall i j a b,
    (i < j)%nat -> nth_error t i = Some a -> nth_error t j = Some b ->
    count a = count b ->
    exists i0 j0, (i0 < j0)%nat /\ nth_error t0 i0 = Some a /\ nth_error t0 j0 = Some b.

Definition has_key (by_ : Row -> option string) (r : Row) : bool :=
  match by_ r with
  | Some _ => true
  | None => false
  end.

(** ** Sample data *)

(** An order line with every grouping key present. *)
Definition order_line (oid cust cty cat : string) (p : Q) (ts : Z) : Row :=
  {| order_id := Some oid;
     customer_unique_id := Some cust;
     customer_city := Some cty;
     product_id := Some "p"%string;
     product_category_name_english := Some cat;
     price := p;
     freight_value := 0%Q;
     geolocation_lat := None;
     geolocation_lng := None;
     order_purchase_timestamp := ts |}.

(** The three orders of the specification's example. *)
Definition order_A : Row :=
  order_line "A" "X" "SP" "toys" 100%Q (Timestamp 2018 1 1 10 0 0).
Definition order_B : Row :=
  order_line "B" "X" "SP" "toys" 50%Q (Timestamp 2018 1 2 10 0 0).
Definition order_C : Row :=
  order_line "C" "Y" "RJ" "books" 200%Q (Timestamp 2018 1 1 11 0 0).

(** A frame of [n] customers "0", "1", ..., one order line each. *)
Definition customer_line (i : N) : Row :=
  order_line (str i) (str i) "SP" "toys" 1%Q (Timestamp 2018 1 1 0 0 0).

Definition many_customers (n : N) : DataFrame :=
  map (fun i => customer_line (N.of_nat i)) (seq 0 (N.to_nat n)).

(** A single order placed at noon on 2018-08-01. *)
Definition noon_order : Row :=
  order_line "A" "X" "SP" "toys" 100%Q (Timestamp 2018 8 1 12 0 0).


(** An order two days after [order_A], with no order on the day between. *)
Definition order_D : Row :=
  order_line "D" "Z" "SP" "toys" 10%Q (Timestamp 2018 1 3 9 0 0).

(** A second line of order "A" that carries a timestamp of the next day. *)
Definition order_A_next_day : Row :=
  order_line "A" "X" "SP" "toys" 100%Q (Timestamp 2018 1 2 10 0 0).

(** A second order of customer "X", delivered to another city. *)
Definition order_B_other_city : Row :=
  order_line "B" "X" "RJ" "toys" 50%Q (Timestamp 2018 1 2 10 0 0).


(** A second row of customer "X" that names no city. *)
Definition order_B_no_city : Row :=
  {| order_id := Some "B"%string;
     customer_unique_id := Some "X"%string;
     customer_city := None;
     product_id := Some "p"%string;
     product_category_name_english := Some "toys"%string;
     price := 50%Q;
     freight_value := 0%Q;
     geolocation_lat := None;
     geolocation_lng := None;
     order_purchase_timestamp := Timestamp 2018 1 2 10 0 0 |}.

(** A row that lacks all three grouping keys. *)
Definition keyless_line : Row :=
  {| order_id := Some "K"%string;
     customer_unique_id := None;
     customer_city := None;
     product_id := Some "p"%string;
     product_category_name_english := None;
     price := 5%Q;
     freight_value := 1%Q;
     geolocation_lat := None;
     geolocation_lng := None;
     order_purchase_timestamp := Timestamp 2018 1 1 12 0 0 |}.

(** ** The rest of the script *)

(** [Series.min()] of a timestamp column; NaT on an empty column. *)
Definition min_ts (l : list Z) : option Z :=
  match l with
  | [] => None
  | x :: t => Some (fold_left Z.min t x)
  end.

(** The bounds of the date widget (lines 96-97), which are also its default
    value (line 111). *)
Definition max_date (df : DataFrame) : option Z :=
  max_ts (map order_purchase_timestamp df).
Definition min_date (df : DataFrame) : option Z :=
  min_ts (map order_purchase_timestamp df).

(** The two metrics above the daily chart (lines 133 and 139, before the
    currency formatting). *)
Definition total_orders (daily_orders_df : list DailyRow) : nat :=
  sum_nat (map order_count daily_orders_df).
Definition total_revenue (daily_orders_df : list DailyRow) : Q :=
  sum_Q (map revenue daily_orders_df).

(** [DataFrame.head(n)] and [DataFrame.tail(n)]. *)
Definition df_head {A : Type} (n : nat) (l : list A) : list A := firstn n l.
Definition df_tail {A : Type} (n : nat) (l : list A) : list A :=
  skipn (List.length l - n) l.

(** [Series.max()] and [Series.min()] of a column of counts; NaN on an empty
    column. *)
Definition column_max (l : list nat) : option nat :=
  match l with
  | [] => None
  | x :: t => Some (fold_left Nat.max t x)
  end.
Definition column_min (l : list nat) : option nat :=
  match l with
  | [] => None
  | x :: t => Some (fold_left Nat.min t x)
  end.

(** [v == column.max()]. *)
Definition equals_extremum (v : nat) (m : option nat) : bool :=
  match m with
  | Some m' => (v =? m')%nat
  | None => false
  end.

(** A Python [dict] from strings to strings, in insertion order:
    [d[k] = v] replaces the value of a key that is present and appends the
    key otherwise. *)
Definition Dict : Type := list (string * string).

Fixpoint dict_set (d : Dict) (k v : string) : Dict :=
  match d with
  | [] => [(k, v)]
  | (k', v') :: t =>
      if String.eqb k k' then (k, v) :: t else (k', v') :: dict_set t k v
  end.

Fixpoint dict_get (d : Dict) (k : string) : option string :=
  match d with
  | [] => None
  | (k', v') :: t => if String.eqb k k' then Some v' else dict_get t k
  end.

(** The colouring loop, written three times in the script (lines 153-160,
    181-188, 211-217): every row of [temp_df] gets the colour [marked] when
    its count equals the extremum of the count column of [temp_df], and the
    colour [plain] otherwise. *)
Definition color_map_of {A : Type} (name : A -> string) (count : A -> nat)
    (extremum : list nat -> option nat) (marked plain : string)
    (temp_df : list A) : Dict :=
  fold_left
    (fun color_map x =>
       if equals_extremum (count x) (extremum (map count temp_df))
       then dict_set color_map (name x) marked
       else dict_set color_map (name x) plain)
    temp_df [].

(** Lines 153-160: the five best categories. *)
Definition best_products_color_map (product_category_sales_df : list CategoryRow)
  : Dict :=
  color_map_of category total_order column_max "#1C325B" "#B3C8CF"
    (df_head 5 product_category_sales_df).

(** Lines 181-188: the five worst categories. *)
Definition worst_products_color_map (product_category_sales_df : list CategoryRow)
  : Dict :=
  color_map_of category total_order column_min "#FF004D" "#B3C8CF"
    (df_tail 5 product_category_sales_df).

(** Lines 211-217: the five cities with most customers. *)
Definition city_color_map (total_customer_by_city_df : list CityRow) : Dict :=
  color_map_of city total_customer column_max "#1C325B" "#B3C8CF"
    (df_head 5 total_customer_by_city_df).

(** The three RFM charts (lines 255-258) sort the RFM table by one column,
    recency ascending, frequency and monetary descending, and keep the first
    five rows. The sort is again the library's, with the default kind: an
    operation that takes the order to sort by, and the two facts every kind
    guarantees. A missing value sorts last. *)
Inductive RfmColumn : Type := Recency | Frequency | Monetary.

Class SortValuesBy : Type :=
  sort_values_by : forall A : Type, (A -> A -> bool) -> list A -> list A.

Class SortValuesBySpec (sb : SortValuesBy) : Prop := {
  sort_values_by_perm :
    forall (A : Type) (leb : A -> A -> bool) (l : list A),
      Permutation (sort_values_by A leb l) l;
  sort_values_by_sorted :
    forall (A : Type) (leb : A -> A -> bool) (l : list A),
      (forall x y, leb x y = true \/ leb y x = true) ->
      (forall x y z, leb x y = true -> leb y z = true -> leb x z = true) ->
      StronglySorted (fun x y => leb x y = true) (sort_values_by A leb l)
}.

(** A present value stands before a missing one; two present values stand
    in the order [leb]. *)
Definition missing_last {V : Type} (leb : V -> V -> bool) (a b : option V) : bool :=
  match a, b with
  | Some a', Some b' => leb a' b'
  | Some _, None => true
  | None, Some _ => false
  | None, None => true
  end.

(** [x] may stand before [y] in the chart of column [col]. *)
Definition rfm_before (col : RfmColumn) (x y : RfmRow) : bool :=
  match col with
  | Recency => missing_last Z.leb (recency x) (recency y)
  | Frequency => missing_last (fun a b => (b <=? a)%nat) (frequency x) (frequency y)
  | Monetary => missing_last (fun a b => Qle_bool b a) (monetary x) (monetary y)
  end.

Definition rfm_chart {sb : SortValuesBy} (col : RfmColumn) (rfm_df : list RfmRow)
  : list RfmRow :=
  df_head 5 (sort_values_by RfmRow (rfm_before col) rfm_df).

(** A sort kind within the interface. *)
Fixpoint insert_by {A : Type} (leb : A -> A -> bool) (x : A) (l : list A) : list A :=
  match l with
  | [] => [x]
  | h :: t => if leb x h then x :: l else h :: insert_by leb x t
  end.

Definition insertion_sort_by : SortValuesBy :=
  fun A leb l => fold_right (insert_by leb) [] l.

(** ** More vocabulary *)

(** The rows of [df] that have a value in column [by_]. *)
Definition with_key (by_ : Row -> option string) (df : DataFrame) : DataFrame :=
  filter (has_key by_) df.

(** An order line with a latitude. *)
Definition located_line (oid cust cty : string) (lat : option Q) : Row :=
  {| order_id := Some oid;
     customer_unique_id := Some cust;
     customer_city := Some cty;
     product_id := Some "p"%string;
     product_category_name_english := Some "toys"%string;
     price := 1%Q;
     freight_value := 0%Q;
     geolocation_lat := lat;
     geolocation_lng := None;
     order_purchase_timestamp := Timestamp 2018 1 1 0 0 0 |}.

(** * Properties *)

(** ** Subsequences and the date filter *)

Lemma subseq_filter {A : Type} (f : A -> bool) (l : list A) :
  subseq (filter f l) l.
Proof.
  induction l as [|x l IH]; simpl.
  - constructor.
  - destruct (f x); constructor; assumption.
Qed.

(** A subsequence all of whose elements pass the test survives the filter. *)
Lemma subseq_into_filter {A : Type} (f : A -> bool) (l m : list A) :
  subseq l m -> Forall (fun x => f x = true) l -> subseq l (filter f m).
Proof.
  induction 1 as [|x l m _ IH|x l m _ IH]; intros Hall; simpl.
  - constructor.
  - destruct (f x); [apply subseq_skip|]; apply IH; assumption.
  - inversion Hall as [|? ? Hx Hl]; subst.
    rewrite Hx. apply subseq_keep, IH, Hl.
Qed.

Lemma in_range_test (s e : Z) (r : Row) :
  (s <=? purchase_date r) && (purchase_date r <=? e) = true <-> in_range s e r.
Proof. unfold in_range. rewrite andb_true_iff, !Z.leb_le. tauto. Qed.

(** Day granularity: a date is in range exactly when the timestamp lies
    between midnight of the first day and midnight after the last day. *)
Lemma in_range_timestamps (s e : Z) (r : Row) :
  in_range s e r <->
  s * seconds_per_day <= order_purchase_timestamp r < (e + 1) * seconds_per_day.
Proof.
  unfold in_range, purchase_date, dt_date, seconds_per_day.
  pose proof (Z.div_mod (order_purchase_timestamp r) 86400 ltac:(lia)) as E.
  pose proof (Z.mod_pos_bound (order_purchase_timestamp r) 86400 ltac:(lia)) as B.
  lia.
Qed.

(** C1. The date filter returns exactly the rows whose purchase date lies in
    [[s, e]], both bounds included and compared by calendar day: the result
    is a subsequence of the input, all of its rows are in range, a row of the
    input is in it exactly when it is in range (which for the timestamp means
    from midnight of [s] up to, not including, midnight after [e]), and every
    subsequence of the input made of in-range rows is a subsequence of the
    result. *)
Theorem date_filter_exact (s e : Z) (df : DataFrame) :
  subseq (main_df s e df) df /\
  Forall (in_range s e) (main_df s e df) /\
  (forall r, In r (main_df s e df) <->
             In r df /\ s * seconds_per_day <= order_purchase_timestamp r
                        < (e + 1) * seconds_per_day) /\
  (forall l, subseq l df -> Forall (in_range s e) l -> subseq l (main_df s e df)).
Proof.
  unfold main_df. split; [|split; [|split]].
  - apply subseq_filter.
  - apply Forall_forall. intros r Hr.
    apply filter_In in Hr. apply in_range_test, Hr.
  - intros r. rewrite filter_In, in_range_test, in_range_timestamps. tauto.
  - intros l Hsub Hall. apply subseq_into_filter; [assumption|].
    eapply Forall_impl; [|exact Hall].
    intros r Hr. apply in_range_test, Hr.
Qed.

(** ** Group keys: distinct, ascending, and exactly the keys that occur *)

Section Keys.

Lemma compare_Eq (a b : string) : String_as_OT.compare a b = Eq -> a = b.
Proof.
  intros H. destruct (String_as_OT.compare_spec a b); congruence.
Qed.

Lemma compare_Gt (a b : string) : String_as_OT.compare a b = Gt -> str_lt b a.
Proof.
  intros H. destruct (String_as_OT.compare_spec a b); congruence.
Qed.

Lemma str_lt_trans (a b c : string) : str_lt a b -> str_lt b c -> str_lt a c.
Proof. apply String_as_OT.lt_strorder. Qed.

Lemma str_lt_irrefl (a : string) : ~ str_lt a a.
Proof. apply String_as_OT.lt_strorder. Qed.

Lemma insert_key_In (k x : string) (l : list string) :
  In x (insert_key k l) <-> x = k \/ In x l.
Proof.
  induction l as [|h t IH]; simpl.
  - intuition.
  - destruct (String_as_OT.compare k h) eqn:E; simpl.
    + apply compare_Eq in E. subst. intuition.
    + intuition.
    + rewrite IH. intuition.
Qed.

Lemma insert_key_sorted (k : string) (l : list string) :
  StronglySorted str_lt l -> StronglySorted str_lt (insert_key k l).
Proof.
  induction 1 as [|h t Ht IH Hall]; simpl.
  - repeat constructor.
  - destruct (String_as_OT.compare k h) eqn:E.
    + constructor; assumption.
    + constructor; [constructor; assumption|].
      constructor; [exact E|].
      eapply Forall_impl; [|exact Hall].
      intros y Hy. eapply str_lt_trans; eassumption.
    + constructor; [assumption|].
      apply Forall_forall. intros y Hy.
      apply insert_key_In in Hy. destruct Hy as [->|Hy].
      * apply compare_Gt, E.
      * rewrite Forall_forall in Hall. apply Hall, Hy.
Qed.

Lemma unique_sorted_In (x : string) (l : list string) :
  In x (unique_sorted l) <-> In x l.
Proof.
  induction l as [|h t IH]; simpl.
  - tauto.
  - rewrite insert_key_In, IH. intuition.
Qed.

Lemma unique_sorted_sorted (l : list string) :
  StronglySorted str_lt (unique_sorted l).
Proof.
  induction l; simpl; [constructor | apply insert_key_sorted; assumption].
Qed.

Lemma sorted_NoDup (l : list string) : StronglySorted str_lt l -> NoDup l.
Proof.
  induction 1 as [|h t Ht IH Hall]; constructor; [|assumption].
  intros Hin. rewrite Forall_forall in Hall.
  exact (str_lt_irrefl h (Hall h Hin)).
Qed.

Lemma unique_sorted_NoDup (l : list string) : NoDup (unique_sorted l).
Proof. apply sorted_NoDup, unique_sorted_sorted. Qed.

Lemma unique_sorted_length (l : list string) :
  NoDup l -> List.length (unique_sorted l) = List.length l.
Proof.
  intros H. apply Permutation_length, NoDup_Permutation.
  - apply unique_sorted_NoDup.
  - assumption.
  - intros x. apply unique_sorted_In.
Qed.

Lemma dropna_In {A : Type} (x : A) (l : list (option A)) :
  In x (dropna l) <-> In (Some x) l.
Proof.
  induction l as [|[y|] t IH]; simpl.
  - tauto.
  - rewrite IH. split; intros [H|H]; auto; left; congruence.
  - rewrite IH. split; [auto | intros [H|H]; [discriminate | assumption]].
Qed.

Lemma key_is_true (k : string) (c : option string) :
  key_is k c = true <-> c = Some k.
Proof.
  destruct c as [k'|]; simpl.
  - rewrite String.eqb_eq. split; congruence.
  - split; discriminate.
Qed.

Variable by_ : Row -> option string.

Lemma group_keys_In (k : string) (df : DataFrame) :
  In k (group_keys by_ df) <-> exists r, In r df /\ by_ r = Some k.
Proof.
  unfold group_keys. rewrite unique_sorted_In, dropna_In, in_map_iff.
  split; intros [r [H1 H2]]; exists r; tauto.
Qed.

Lemma group_keys_NoDup (df : DataFrame) : NoDup (group_keys by_ df).
Proof. apply unique_sorted_NoDup. Qed.

Lemma get_group_In (k : string) (r : Row) (df : DataFrame) :
  In r (get_group by_ k df) <-> In r df /\ by_ r = Some k.
Proof. unfold get_group. rewrite filter_In, key_is_true. tauto. Qed.

Lemma groupby_keys (df : DataFrame) :
  map fst (groupby by_ df) = group_keys by_ df.
Proof.
  unfold groupby. rewrite map_map. simpl. apply map_id.
Qed.

Lemma groupby_In (g : string * DataFrame) (df : DataFrame) :
  In g (groupby by_ df) ->
  In (fst g) (group_keys by_ df) /\ snd g = get_group by_ (fst g) df.
Proof.
  unfold groupby. rewrite in_map_iff. intros [k [<- Hk]]. simpl. tauto.
Qed.

(** No group is empty. *)
Lemma groupby_nonempty (g : string * DataFrame) (df : DataFrame) :
  In g (groupby by_ df) -> exists r, In r (snd g).
Proof.
  intros H. apply groupby_In in H. destruct H as [Hk ->].
  apply group_keys_In in Hk. destruct Hk as [r Hr].
  exists r. apply get_group_In, Hr.
Qed.

(** Rows without a key take no part in the grouping. *)
Lemma groupby_has_key (df : DataFrame) :
  groupby by_ (filter (has_key by_) df) = groupby by_ df.
Proof.
  assert (K : group_keys by_ (filter (has_key by_) df) = group_keys by_ df).
  { unfold group_keys. f_equal.
    induction df as [|r t IH]; simpl; [reflexivity|].
    unfold has_key at 1. destruct (by_ r) eqn:E; simpl; rewrite ?E, IH; reflexivity. }
  unfold groupby. rewrite K. clear K. apply map_ext. intros k. f_equal.
  unfold get_group.
  induction df as [|r t IH]; simpl; [reflexivity|].
  unfold has_key at 1. destruct (by_ r) eqn:E; simpl; rewrite ?E; simpl.
  - rewrite IH. reflexivity.
  - exact IH.
Qed.

End Keys.

(** ** Aggregation helpers *)

Lemma fold_left_max_ge (l : list Z) (x : Z) : x <= fold_left Z.max l x.
Proof.
  revert x. induction l as [|y t IH]; intros x; simpl; [lia|].
  specialize (IH (Z.max x y)). lia.
Qed.

Lemma fold_left_max_upper (l : list Z) (x y : Z) :
  In y l -> y <= fold_left Z.max l x.
Proof.
  revert x. induction l as [|z t IH]; intros x; simpl; [tauto|].
  intros [->|H].
  - pose proof (fold_left_max_ge t (Z.max x y)). lia.
  - apply IH, H.
Qed.

Lemma fold_left_max_In (l : list Z) (x : Z) :
  fold_left Z.max l x = x \/ In (fold_left Z.max l x) l.
Proof.
  revert x. induction l as [|y t IH]; intros x; simpl; [tauto|].
  destruct (IH (Z.max x y)) as [E|H]; [|tauto].
  rewrite E. destruct (Z.max_spec x y) as [[_ ->]|[_ ->]]; tauto.
Qed.

(** On a column with at least one cell [max_ts] is the greatest cell. *)
Lemma max_ts_spec (l : list Z) (x : Z) :
  In x l ->
  exists m, max_ts l = Some m /\ In m l /\ forall y, In y l -> y <= m.
Proof.
  destruct l as [|h t]; simpl; [tauto|]. intros _.
  exists (fold_left Z.max t h). split; [reflexivity|]. split.
  - destruct (fold_left_max_In t h) as [->|H]; tauto.
  - intros y [<-|Hy]; [apply fold_left_max_ge | apply fold_left_max_upper, Hy].
Qed.

(** [dt_days] rounds down to whole days. *)
Lemma dt_days_floor (delta : Z) :
  dt_days delta * seconds_per_day <= delta < (dt_days delta + 1) * seconds_per_day.
Proof.
  unfold dt_days, seconds_per_day.
  pose proof (Z.div_mod delta 86400 ltac:(lia)).
  pose proof (Z.mod_pos_bound delta 86400 ltac:(lia)).
  lia.
Qed.

Lemma NoDup_map_inj {A B : Type} (f : A -> B) (l : list A) :
  (forall x y, f x = f y -> x = y) -> NoDup l -> NoDup (map f l).
Proof.
  intros Hf. induction 1 as [|x l Hx Hl IH]; simpl; constructor; [|assumption].
  rewrite in_map_iff. intros [y [E Hy]]. apply Hf in E. subst. contradiction.
Qed.

Lemma nunique_pos (l : list (option string)) (x : string) :
  In (Some x) l -> (1 <= nunique l)%nat.
Proof.
  unfold nunique. intros H. apply dropna_In, (nodup_In string_dec) in H.
  destruct (nodup string_dec (dropna l)); simpl in *; [tauto | lia].
Qed.

(** [nunique] is 0 exactly on a column without a present value. *)
Lemma nunique_pos_iff (l : list (option string)) :
  (1 <= nunique l)%nat <-> exists x, In (Some x) l.
Proof.
  split.
  - unfold nunique. destruct (nodup string_dec (dropna l)) as [|x t] eqn:E.
    + simpl. lia.
    + intros _. exists x. apply dropna_In, (nodup_In string_dec).
      rewrite E. left. reflexivity.
  - intros [x Hx]. apply (nunique_pos l x Hx).
Qed.

(** [nunique] counts the distinct values present. *)
Lemma nunique_counts_distinct (l : list (option string)) :
  counts_distinct l (nunique l).
Proof.
  exists (nodup string_dec (dropna l)). split; [apply NoDup_nodup|]. split.
  - intros x. rewrite nodup_In. apply dropna_In.
  - reflexivity.
Qed.

(** The number of distinct values present is determined by the column. *)
Lemma counts_distinct_nunique (l : list (option string)) (n : nat) :
  counts_distinct l n -> n = nunique l.
Proof.
  intros [d [Hnd [Hin <-]]]. unfold nunique.
  apply Permutation_length, NoDup_Permutation;
    [exact Hnd | apply NoDup_nodup |].
  intros x. rewrite nodup_In, dropna_In. apply Hin.
Qed.



(** ** The RFM table, row by row *)

Lemma with_index_nth {A : Type} (l : list A) (start : N) (i : nat) :
  nth_error (with_index start l) i =
  option_map (fun x => ((start + N.of_nat i)%N, x)) (nth_error l i).
Proof.
  revert start i. induction l as [|x t IH]; intros start [|i]; simpl; try reflexivity.
  - rewrite N.add_0_r. reflexivity.
  - rewrite IH. destruct (nth_error t i); simpl; [|reflexivity].
    do 2 f_equal. lia.
Qed.

Lemma with_index_snd {A : Type} (l : list A) (start : N) :
  map snd (with_index start l) = l.
Proof.
  revert start. induction l as [|x t IH]; intros start; simpl; [|rewrite IH]; reflexivity.
Qed.

(** The grouped frame has a row exactly when some row has a customer id. *)
Lemma groupby_customers_nil (df : DataFrame) :
  groupby customer_unique_id df = [] <-> ~ some_customer df.
Proof.
  unfold some_customer. split.
  - intros E [r [c [Hr Hc]]].
    assert (Hk : In c (group_keys customer_unique_id df))
      by (apply group_keys_In; eauto).
    rewrite <- groupby_keys, E in Hk. exact Hk.
  - intros H. destruct (groupby customer_unique_id df) as [|g t] eqn:E; [reflexivity|].
    exfalso. apply H.
    assert (Hg : In (fst g) (group_keys customer_unique_id df)).
    { rewrite <- groupby_keys, E. left. reflexivity. }
    apply group_keys_In in Hg. destruct Hg as [r Hr]. exists r, (fst g). exact Hr.
Qed.

Lemma rfm_of_groups (df : DataFrame) :
  some_customer df ->
  create_rfm_df df = map rfm_row (with_index 0 (groupby customer_unique_id df)).
Proof.
  intros H. unfold create_rfm_df.
  destruct (groupby customer_unique_id df) as [|g t] eqn:E; [|reflexivity].
  exfalso. apply groupby_customers_nil in E. contradiction.
Qed.

Lemma rfm_of_no_customer (df : DataFrame) :
  ~ some_customer df ->
  create_rfm_df df
  = map (fun i => label_only_row (N.of_nat i)) (seq 0 (N.to_nat label_count)).
Proof.
  intros H. apply groupby_customers_nil in H. unfold create_rfm_df.
  rewrite H. reflexivity.
Qed.

Lemma some_customer_dec (df : DataFrame) : some_customer df \/ ~ some_customer df.
Proof.
  destruct (groupby customer_unique_id df) as [|g t] eqn:E.
  - right. apply groupby_customers_nil, E.
  - left. assert (Hg : In (fst g) (group_keys customer_unique_id df)).
    { rewrite <- groupby_keys, E. left. reflexivity. }
    apply group_keys_In in Hg. destruct Hg as [r Hr]. exists r, (fst g). exact Hr.
Qed.

Lemma rfm_customers (df : DataFrame) :
  some_customer df ->
  map rfm_customer_unique_id (create_rfm_df df)
  = map Some (group_keys customer_unique_id df).
Proof.
  intros H. rewrite (rfm_of_groups df H), map_map. unfold rfm_row.
  cbn [rfm_customer_unique_id].
  rewrite <- (groupby_keys customer_unique_id df).
  rewrite <- (with_index_snd (groupby customer_unique_id df) 0) at 2.
  rewrite !map_map. reflexivity.
Qed.

Lemma rfm_length (df : DataFrame) :
  some_customer df ->
  List.length (create_rfm_df df) = List.length (group_keys customer_unique_id df).
Proof.
  intros H. rewrite <- (length_map rfm_customer_unique_id), (rfm_customers df H).
  apply length_map.
Qed.

(** When some row has a customer id, every row of the table is the
    aggregate of the group of its customer, which is not empty. *)
Lemma rfm_row_inv (df : DataFrame) (x : RfmRow) :
  some_customer df -> In x (create_rfm_df df) ->
  exists c, rfm_customer_unique_id x = Some c /\
    let g := get_group customer_unique_id c df in
    (exists r, In r g) /\
    recency x = option_map (fun latest => dt_days (latest_date - latest))
                  (max_ts (map order_purchase_timestamp g)) /\
    frequency x = Some (nunique (map order_id g)) /\
    monetary x = Some (sum_Q (map price g)).
Proof.
  intros H. rewrite (rfm_of_groups df H), in_map_iff. intros [[i g] [<- Hin]].
  assert (Hg : In g (groupby customer_unique_id df)).
  { rewrite <- (with_index_snd (groupby customer_unique_id df) 0).
    apply in_map_iff. exists (i, g). split; [reflexivity | assumption]. }
  pose proof (groupby_nonempty _ _ _ Hg) as Hne.
  apply groupby_In in Hg. destruct Hg as [_ Hg].
  exists (fst g). unfold rfm_row.
  cbn [fst snd rfm_customer_unique_id recency frequency monetary].
  rewrite <- Hg. tauto.
Qed.

(** Without a customer id in the frame every row has a label and nothing
    else. *)
Lemma rfm_row_without_customer (df : DataFrame) (x : RfmRow) :
  ~ some_customer df -> In x (create_rfm_df df) ->
  rfm_customer_unique_id x = None /\ recency x = None /\
  frequency x = None /\ monetary x = None /\
  exists l, customer_label_id x = Some l.
Proof.
  intros H. rewrite (rfm_of_no_customer df H), in_map_iff.
  intros [i [<- Hi]]. apply in_seq in Hi.
  unfold label_only_row. cbn [rfm_customer_unique_id recency frequency monetary
                               customer_label_id].
  repeat split. unfold label_series.
  assert (E : (N.of_nat i <? label_count)%N = true) by (apply N.ltb_lt; lia).
  rewrite E. eauto.
Qed.

Lemma rfm_length_without_customer (df : DataFrame) :
  ~ some_customer df ->
  N.of_nat (List.length (create_rfm_df df)) = label_count.
Proof.
  intros H. rewrite (rfm_of_no_customer df H), length_map, length_seq.
  apply N2Nat.id.
Qed.

Lemma latest_date_value : latest_date = 1535965617.
Proof. reflexivity. Qed.

Lemma civil_2018_08_01 : days_from_civil 2018 8 1 = 17744.
Proof. reflexivity. Qed.

(** C2 (amended). In a frame where some row has a customer id, the RFM
    table has one row per distinct customer id of the input and none
    without an id. The recency of a row is the number of whole days, rounded
    down, from the customer's latest purchase timestamp to the reference
    instant 2018-09-03 09:06:57, and it is not negative when that purchase
    is not after the reference instant. A customer whose only order line was
    bought on 2018-08-01 gets frequency 1, the price of that line as
    monetary, and recency 33 when the purchase was made at or before
    09:06:57 that day, 32 when it was made later in the day. *)
Theorem rfm_recency_per_customer (df : DataFrame) :
  some_customer df ->
  NoDup (map rfm_customer_unique_id (create_rfm_df df)) /\
  (forall x, In x (create_rfm_df df) -> exists c, rfm_customer_unique_id x = Some c) /\
  (forall c, In (Some c) (map rfm_customer_unique_id (create_rfm_df df)) <->
             exists r, In r df /\ customer_unique_id r = Some c) /\
  (forall x c, In x (create_rfm_df df) -> rfm_customer_unique_id x = Some c ->
     exists latest days,
       latest_purchase df c latest /\
       recency x = Some days /\
       days * seconds_per_day <= latest_date - latest
         < (days + 1) * seconds_per_day /\
       (latest <= latest_date -> 0 <= days)) /\
  (forall x c r o, In x (create_rfm_df df) -> rfm_customer_unique_id x = Some c ->
     get_group customer_unique_id c df = [r] ->
     order_id r = Some o ->
     purchase_date r = days_from_civil 2018 8 1 ->
     frequency x = Some 1%nat /\
     (exists m, monetary x = Some m /\ (m == price r)%Q) /\
     recency x =
       Some (if time_of_day (order_purchase_timestamp r) <=? 9 * 3600 + 6 * 60 + 57
             then 33 else 32)).
Proof.
  intros Hsome. split; [|split; [|split; [|split]]].
  - rewrite (rfm_customers df Hsome). apply NoDup_map_inj.
    + intros a b E. injection E as E. exact E.
    + apply group_keys_NoDup.
  - intros x Hx. destruct (rfm_row_inv df x Hsome Hx) as [c [Hc _]]. eauto.
  - intros c. rewrite (rfm_customers df Hsome), in_map_iff.
    rewrite <- (group_keys_In customer_unique_id). split.
    + intros [c' [E Hc']]. injection E as ->. exact Hc'.
    + intros Hc. exists c. split; [reflexivity | exact Hc].
  - intros x c Hx Ec. destruct (rfm_row_inv df x Hsome Hx) as [c' [Ec' Hx']].
    rewrite Ec in Ec'. injection Ec' as <-. cbv zeta in Hx'.
    destruct Hx' as [[r Hr] [Hrec _]].
    destruct (max_ts_spec (map order_purchase_timestamp
                (get_group customer_unique_id c df))
                (order_purchase_timestamp r) (in_map _ _ _ Hr))
      as [m [Hm [Hin Hmax]]].
    exists m, (dt_days (latest_date - m)).
    rewrite Hrec, Hm. cbn [option_map].
    pose proof (dt_days_floor (latest_date - m)) as F.
    split; [|split; [reflexivity|split; [exact F|]]].
    + split.
      * apply in_map_iff in Hin. destruct Hin as [r' [E Hr']].
        apply get_group_In in Hr'. exists r'. tauto.
      * intros r' Hr' Hc. apply Hmax, in_map, get_group_In. tauto.
    + unfold seconds_per_day in F. lia.
  - intros x c r o Hx Ec Hg Ho Hd.
    destruct (rfm_row_inv df x Hsome Hx) as [c' [Ec' Hx']].
    rewrite Ec in Ec'. injection Ec' as <-. cbv zeta in Hx'.
    rewrite Hg in Hx'. destruct Hx' as [_ [Hrec [Hf Hm]]].
    split; [|split].
    + rewrite Hf. cbn [map]. rewrite Ho. reflexivity.
    + exists (sum_Q (map price [r])). split; [exact Hm|].
      cbn [map sum_Q fold_right]. lra.
    + rewrite Hrec. cbn [map max_ts fold_left option_map]. f_equal.
      rewrite civil_2018_08_01 in Hd.
      unfold time_of_day. unfold purchase_date in Hd. rewrite Hd.
      pose proof (dt_days_floor (latest_date - order_purchase_timestamp r)) as F.
      assert (B : 17744 * 86400 <= order_purchase_timestamp r < 17745 * 86400).
      { unfold dt_date, seconds_per_day in Hd.
        pose proof (Z.div_mod (order_purchase_timestamp r) 86400 ltac:(lia)).
        pose proof (Z.mod_pos_bound (order_purchase_timestamp r) 86400 ltac:(lia)).
        lia. }
      rewrite latest_date_value in *. unfold seconds_per_day in *.
      destruct (Z.leb_spec (order_purchase_timestamp r - 17744 * 86400)
                           (9 * 3600 + 6 * 60 + 57)); lia.
Qed.

(** The claim as the specification words it fails for an order placed at
    noon on 2018-08-01: it is the customer's only order and falls on that
    day, and its recency is 32, not 33. *)
Lemma rfm_recency_noon_order :
  get_group customer_unique_id "X" [noon_order] = [noon_order] /\
  purchase_date noon_order = days_from_civil 2018 8 1 /\
  map rfm_customer_unique_id (create_rfm_df [noon_order]) = [Some "X"%string] /\
  map recency (create_rfm_df [noon_order]) = [Some 32] /\
  ~ (forall x, In x (create_rfm_df [noon_order]) -> recency x = Some 33).
Proof.
  repeat split; try reflexivity.
  intros H. specialize (H _ (or_introl eq_refl)). vm_compute in H. discriminate.
Qed.

(** The general facts at the three orders of the specification's example. *)
Lemma rfm_recency_per_customer_witness :
  some_customer [order_A; order_B; order_C] /\
  map recency (create_rfm_df [order_A; order_B; order_C]) = [Some 243; Some 244] /\
  NoDup (map rfm_customer_unique_id (create_rfm_df [order_A; order_B; order_C])).
Proof.
  assert (H : some_customer [order_A; order_B; order_C]).
  { exists order_A, "X"%string. split; [left; reflexivity | reflexivity]. }
  split; [exact H|]. split; [reflexivity|].
  apply (rfm_recency_per_customer [order_A; order_B; order_C] H).
Defined.

(** ** Labels of the RFM table *)

Lemma str_inj (i j : N) : str i = str j -> i = j.
Proof.
  unfold str. intros H. apply Unsigned.to_uint_inj.
  pose proof (NilEmpty.usu (N.to_uint i)) as Hi.
  pose proof (NilEmpty.usu (N.to_uint j)) as Hj.
  rewrite H in Hi. congruence.
Qed.

Lemma many_customers_ids (n : N) :
  dropna (map customer_unique_id (many_customers n)) =
  map (fun i => str (N.of_nat i)) (seq 0 (N.to_nat n)).
Proof.
  unfold many_customers. generalize (seq 0 (N.to_nat n)).
  induction l as [|i l IH]; [reflexivity|].
  cbn [map dropna customer_line order_line customer_unique_id]. rewrite <- IH.
  reflexivity.
Qed.

Lemma many_customers_some (n : N) : (0 < n)%N -> some_customer (many_customers n).
Proof.
  intros Hn. exists (customer_line 0), (str 0). split; [|reflexivity].
  unfold many_customers. apply in_map_iff. exists 0%nat.
  split; [reflexivity|]. apply in_seq. lia.
Qed.

Lemma many_customers_rfm_length (n : N) :
  (0 < n)%N -> List.length (create_rfm_df (many_customers n)) = N.to_nat n.
Proof.
  intros Hn. rewrite (rfm_length _ (many_customers_some n Hn)).
  unfold group_keys. rewrite many_customers_ids.
  rewrite unique_sorted_length.
  - rewrite length_map. apply length_seq.
  - apply NoDup_map_inj; [|apply seq_NoDup].
    intros x y E. apply str_inj in E. lia.
Qed.

Lemma nth_error_seq (start len i v : nat) :
  nth_error (seq start len) i = Some v -> v = (start + i)%nat.
Proof.
  revert start i. induction len as [|len IH]; intros start [|i]; simpl;
    try discriminate.
  - intros E. injection E as <-. lia.
  - intros E. apply IH in E. lia.
Qed.

Lemma rfm_label_at (df : DataFrame) (i : nat) (x : RfmRow) :
  nth_error (create_rfm_df df) i = Some x ->
  customer_label_id x = label_series (N.of_nat i).
Proof.
  destruct (some_customer_dec df) as [H|H].
  - rewrite (rfm_of_groups df H), nth_error_map, with_index_nth.
    destruct (nth_error (groupby customer_unique_id df) i); [|discriminate].
    cbn [option_map]. intros E. injection E as <-. reflexivity.
  - rewrite (rfm_of_no_customer df H), nth_error_map.
    destruct (nth_error (seq 0 (N.to_nat label_count)) i) as [v|] eqn:E;
      [|discriminate].
    apply nth_error_seq in E. cbn [option_map]. intros E'. injection E' as <-.
    subst v. reflexivity.
Qed.

(** C3. Labels go by position: the row at position [i] of the RFM table is
    labelled "C" followed by [i] as long as [i] is below 95420, the fixed
    length of the label column, and has no label from there on. On a frame
    of 95421 customers the row at position 95420 is left without a label. *)
Theorem rfm_labels_by_position :
  (forall df i x, nth_error (create_rfm_df df) i = Some x ->
     customer_label_id x =
       if (N.of_nat i <? 95420)%N then Some ("C" ++ str (N.of_nat i))%string
       else None) /\
  (exists x, nth_error (create_rfm_df (many_customers 95421)) (N.to_nat 95420) = Some x
             /\ customer_label_id x = None).
Proof.
  split.
  - intros df i x H. apply rfm_label_at in H. exact H.
  - destruct (nth_error (create_rfm_df (many_customers 95421)) (N.to_nat 95420))
      as [x|] eqn:E.
    + exists x. split; [reflexivity|].
      apply rfm_label_at in E. rewrite E, N2Nat.id. reflexivity.
    + exfalso. revert E. apply nth_error_Some.
      rewrite many_customers_rfm_length; lia.
Qed.

(** ** Frequency and monetary *)




(** ** Counts over a partition *)

Lemma sum_nat_perm (l m : list nat) : Permutation l m -> sum_nat l = sum_nat m.
Proof. induction 1; simpl; lia. Qed.

Lemma length_concat_sum {A : Type} (L : list (list A)) :
  List.length (List.concat L) = sum_nat (map (@List.length A) L).
Proof.
  induction L as [|l L IH]; simpl; [reflexivity|].
  rewrite length_app, IH. reflexivity.
Qed.

Lemma nunique_as_length (L : list (list (option string))) :
  sum_nat (map nunique L)
  = List.length (List.concat (map (fun a => nodup string_dec (dropna a)) L)).
Proof.
  rewrite length_concat_sum, map_map. reflexivity.
Qed.

(** Distinct counts add up over columns that share no value. *)
Lemma nunique_disjoint_cover (L : list (list (option string)))
    (l : list (option string)) :
  ForallOrdPairs (fun a b => forall x, In (Some x) a -> ~ In (Some x) b) L ->
  (forall x, In (Some x) l <-> exists a, In a L /\ In (Some x) a) ->
  sum_nat (map nunique L) = nunique l.
Proof.
  intros Hdis Hcov. rewrite nunique_as_length. unfold nunique.
  apply Permutation_length, NoDup_Permutation.
  - apply NoDup_concat.
    + apply Forall_forall. intros a Ha. apply in_map_iff in Ha.
      destruct Ha as [b [<- _]]. apply NoDup_nodup.
    + clear Hcov. induction Hdis as [|a L Ha _ IH]; simpl; constructor.
      * apply Forall_forall. intros b Hb x Hx.
        apply in_map_iff in Hb. destruct Hb as [b' [<- Hb']].
        rewrite nodup_In, dropna_In in *. rewrite Forall_forall in Ha.
        apply (Ha b' Hb' x Hx).
      * exact IH.
  - apply NoDup_nodup.
  - intros x. rewrite nodup_In, dropna_In, Hcov, in_concat. split.
    + intros [a [Ha Hx]]. apply in_map_iff in Ha. destruct Ha as [b [<- Hb]].
      rewrite nodup_In, dropna_In in Hx. eauto.
    + intros [a [Ha Hx]]. exists (nodup string_dec (dropna a)). split.
      * apply in_map_iff. exists a. split; [reflexivity | exact Ha].
      * apply nodup_In, dropna_In, Hx.
Qed.

(** Distinct counts over columns that cover a column are at least its
    distinct count. *)
Lemma nunique_cover_le (L : list (list (option string))) (l : list (option string)) :
  (forall x, In (Some x) l -> exists a, In a L /\ In (Some x) a) ->
  (nunique l <= sum_nat (map nunique L))%nat.
Proof.
  intros Hcov. rewrite nunique_as_length. unfold nunique.
  apply NoDup_incl_length; [apply NoDup_nodup|].
  intros x Hx. apply nodup_In, dropna_In in Hx. destruct (Hcov x Hx) as [a [Ha Hxa]].
  apply in_concat. exists (nodup string_dec (dropna a)). split.
  - apply in_map_iff. exists a. split; [reflexivity | exact Ha].
  - apply nodup_In, dropna_In, Hxa.
Qed.

(** The columns of the bins of distinct keys share no value when no value
    occurs under two keys. *)
Lemma pairwise_disjoint_bins {K : Type} (F : K -> list (option string))
    (ks : list K) :
  NoDup ks ->
  (forall k k' x, In (Some x) (F k) -> In (Some x) (F k') -> k = k') ->
  ForallOrdPairs (fun a b => forall x, In (Some x) a -> ~ In (Some x) b) (map F ks).
Proof.
  intros Hnd Hone. induction Hnd as [|k ks Hk _ IH]; simpl; constructor.
  - apply Forall_forall. intros b Hb x Hx Hx'.
    apply in_map_iff in Hb. destruct Hb as [k' [<- Hk']].
    rewrite (Hone _ _ _ Hx Hx') in Hk. contradiction.
  - exact IH.
Qed.

Lemma on_day_In (d : Z) (r : Row) (df : DataFrame) :
  In r (on_day d df) <-> In r df /\ purchase_date r = d.
Proof. unfold on_day. rewrite filter_In, Z.eqb_eq. tauto. Qed.

(** ** Daily orders: the bins of the resampling *)

Lemma day_range_In (lo hi d : Z) : In d (day_range lo hi) <-> lo <= d <= hi.
Proof.
  unfold day_range. rewrite in_map_iff. split.
  - intros [i [<- Hi]]. apply in_seq in Hi. lia.
  - intros H. exists (Z.to_nat (d - lo)). split; [lia|]. apply in_seq. lia.
Qed.

Lemma day_range_ascending (lo hi : Z) : StronglySorted Z.lt (day_range lo hi).
Proof.
  unfold day_range. generalize (Z.to_nat (hi - lo + 1)) as n.
  generalize 0%nat as start. intros start n. revert start.
  induction n as [|n IH]; intros start; simpl; constructor.
  - apply IH.
  - apply Forall_forall. intros d Hd. apply in_map_iff in Hd.
    destruct Hd as [i [<- Hi]]. apply in_seq in Hi. lia.
Qed.

Lemma ascending_NoDup (l : list Z) : StronglySorted Z.lt l -> NoDup l.
Proof.
  induction 1 as [|h t Ht IH Hall]; constructor; [|assumption].
  intros Hin. rewrite Forall_forall in Hall. specialize (Hall h Hin). lia.
Qed.

Lemma fold_left_min_le (l : list Z) (x : Z) : fold_left Z.min l x <= x.
Proof.
  revert x. induction l as [|y t IH]; intros x; simpl; [lia|].
  specialize (IH (Z.min x y)). lia.
Qed.

Lemma fold_left_min_lower (l : list Z) (x y : Z) :
  In y l -> fold_left Z.min l x <= y.
Proof.
  revert x. induction l as [|z t IH]; intros x; simpl; [tauto|].
  intros [->|H].
  - pose proof (fold_left_min_le t (Z.min x y)). lia.
  - apply IH, H.
Qed.

Lemma fold_left_min_In (l : list Z) (x : Z) :
  fold_left Z.min l x = x \/ In (fold_left Z.min l x) l.
Proof.
  revert x. induction l as [|y t IH]; intros x; simpl; [tauto|].
  destruct (IH (Z.min x y)) as [E|H]; [|tauto].
  rewrite E. destruct (Z.min_spec x y) as [[_ ->]|[_ ->]]; tauto.
Qed.

(** The bins are the days from the earliest to the latest purchase date,
    each with the rows of that day. *)
Lemma resample_D_bins (df : DataFrame) :
  exists lo hi,
    resample_D df = map (fun d => (d, on_day d df)) (day_range lo hi) /\
    (forall r, In r df -> lo <= purchase_date r <= hi) /\
    (forall d, lo <= d <= hi ->
       exists r1 r2, In r1 df /\ In r2 df /\ purchase_date r1 = lo
                     /\ purchase_date r2 = hi).
Proof.
  unfold resample_D. destruct df as [|r t].
  - exists 0, (-1). simpl. split; [reflexivity|]. split; [tauto | intros; lia].
  - cbn [map].
    set (d0 := purchase_date r). set (ds := map purchase_date t).
    exists (min_day d0 ds), (max_day d0 ds). split; [reflexivity|]. split.
    + intros r' [<-|Hr'].
      * split; [apply fold_left_min_le | apply fold_left_max_ge].
      * split; [apply fold_left_min_lower | apply fold_left_max_upper];
          apply in_map, Hr'.
    + intros _ _.
      assert (Hlo : exists r1, In r1 (r :: t) /\ purchase_date r1 = min_day d0 ds).
      { destruct (fold_left_min_In ds d0) as [E|H].
        - exists r. split; [left; reflexivity | symmetry; exact E].
        - apply in_map_iff in H. destruct H as [r1 [E H]].
          exists r1. split; [right; exact H | exact E]. }
      assert (Hhi : exists r2, In r2 (r :: t) /\ purchase_date r2 = max_day d0 ds).
      { destruct (fold_left_max_In ds d0) as [E|H].
        - exists r. split; [left; reflexivity | symmetry; exact E].
        - apply in_map_iff in H. destruct H as [r2 [E H]].
          exists r2. split; [right; exact H | exact E]. }
      destruct Hlo as [r1 [H1 E1]]. destruct Hhi as [r2 [H2 E2]].
      exists r1, r2. tauto.
Qed.

Lemma daily_orders_rows (df : DataFrame) :
  exists lo hi,
    create_daily_orders_df df =
      map (fun d => {| order_date := d;
                       order_count := nunique (map order_id (on_day d df));
                       revenue := sum_Q (map price (on_day d df)) |})
          (day_range lo hi) /\
    (forall r, In r df -> lo <= purchase_date r <= hi) /\
    (forall d, lo <= d <= hi ->
       exists r1 r2, In r1 df /\ In r2 df /\ purchase_date r1 = lo
                     /\ purchase_date r2 = hi).
Proof.
  destruct (resample_D_bins df) as [lo [hi [E H]]].
  exists lo, hi. split; [|exact H].
  unfold create_daily_orders_df. rewrite E, map_map. reflexivity.
Qed.

(** C4 (amended). The Daily Orders table has exactly one row for every
    calendar day from the earliest to the latest purchase date of the input,
    the days without an order included, in ascending order of date. The
    order_count of a row is the number of distinct order ids among the rows
    bought that day and its revenue is the sum of their prices; a day
    without an order has order_count 0 and revenue 0. *)
Theorem daily_orders_span_of_days (df : DataFrame) :
  (forall d, In d (map order_date (create_daily_orders_df df)) <->
     exists r1 r2, In r1 df /\ In r2 df /\
                   purchase_date r1 <= d <= purchase_date r2) /\
  StronglySorted Z.lt (map order_date (create_daily_orders_df df)) /\
  (forall x, In x (create_daily_orders_df df) ->
     order_count x = nunique (map order_id (on_day (order_date x) df)) /\
     revenue x = sum_Q (map price (on_day (order_date x) df))) /\
  (forall x, In x (create_daily_orders_df df) ->
     (forall r, In r df -> purchase_date r <> order_date x) ->
     order_count x = 0%nat /\ revenue x = 0%Q).
Proof.
  destruct (daily_orders_rows df) as [lo [hi [E [Hcov Hends]]]].
  assert (Hdates : map order_date (create_daily_orders_df df) = day_range lo hi).
  { rewrite E, map_map. cbn [order_date]. apply map_id. }
  assert (Hrow : forall x, In x (create_daily_orders_df df) ->
     order_count x = nunique (map order_id (on_day (order_date x) df)) /\
     revenue x = sum_Q (map price (on_day (order_date x) df))).
  { intros x Hx. rewrite E in Hx. apply in_map_iff in Hx.
    destruct Hx as [d [<- _]]. split; reflexivity. }
  split; [|split; [|split]].
  - intros d. rewrite Hdates, day_range_In. split.
    + intros Hd. destruct (Hends d Hd) as [r1 [r2 [H1 [H2 [E1 E2]]]]].
      exists r1, r2. rewrite E1, E2. tauto.
    + intros [r1 [r2 [H1 [H2 Hd]]]].
      pose proof (Hcov r1 H1). pose proof (Hcov r2 H2). lia.
  - rewrite Hdates. apply day_range_ascending.
  - exact Hrow.
  - intros x Hx Hnone. destruct (Hrow x Hx) as [Hc Hr].
    assert (Hempty : on_day (order_date x) df = []).
    { destruct (on_day (order_date x) df) as [|r t] eqn:Eo; [reflexivity|].
      exfalso. assert (Hr' : In r (on_day (order_date x) df))
        by (rewrite Eo; left; reflexivity).
      apply on_day_In in Hr'. apply (Hnone r); tauto. }
    rewrite Hc, Hr, Hempty. split; reflexivity.
Qed.

(** Two orders two days apart: the table has a row for the day between
    them, on which nothing was ordered. *)
Lemma daily_orders_gap_day :
  map (fun x => (order_date x, order_count x))
      (create_daily_orders_df [order_A; order_D])
    = [(17532, 1%nat); (17533, 0%nat); (17534, 1%nat)] /\
  ~ (forall d, In d (map order_date (create_daily_orders_df [order_A; order_D])) ->
               exists r, In r [order_A; order_D] /\ purchase_date r = d).
Proof.
  split; [reflexivity|].
  intros H. destruct (H 17533) as [r [Hr Hd]].
  - vm_compute. tauto.
  - destruct Hr as [<-|[<-|[]]]; vm_compute in Hd; discriminate.
Qed.

Lemma daily_counts_cover (df : DataFrame) (lo hi : Z) (x : string) :
  (forall r, In r df -> lo <= purchase_date r <= hi) ->
  In (Some x) (map order_id df) <->
  exists a, In a (map (fun d => map order_id (on_day d df)) (day_range lo hi))
            /\ In (Some x) a.
Proof.
  intros Hcov. split.
  - intros Hx. apply in_map_iff in Hx. destruct Hx as [r [E Hr]].
    exists (map order_id (on_day (purchase_date r) df)). split.
    + apply in_map_iff. exists (purchase_date r).
      split; [reflexivity | apply day_range_In, Hcov, Hr].
    + apply in_map_iff. exists r. split; [exact E | apply on_day_In; tauto].
  - intros [a [Ha Hx]]. apply in_map_iff in Ha. destruct Ha as [d [<- _]].
    apply in_map_iff in Hx. destruct Hx as [r [E Hr]].
    apply in_map_iff. exists r. apply on_day_In in Hr. tauto.
Qed.

Lemma daily_counts_sum (df : DataFrame) :
  one_date_per_order df ->
  sum_nat (map order_count (create_daily_orders_df df)) = nunique (map order_id df).
Proof.
  intros Hone.
  destruct (daily_orders_rows df) as [lo [hi [E [Hcov _]]]].
  rewrite E, map_map. cbn [order_count].
  rewrite <- (map_map (fun d => map order_id (on_day d df)) nunique).
  apply nunique_disjoint_cover.
  - apply pairwise_disjoint_bins; [apply ascending_NoDup, day_range_ascending|].
    intros d d' x Hx Hx'. apply in_map_iff in Hx, Hx'.
    destruct Hx as [r [Er Hr]]. destruct Hx' as [r' [Er' Hr']].
    apply on_day_In in Hr, Hr'. destruct Hr as [Hr <-]. destruct Hr' as [Hr' <-].
    apply (Hone r r' x); assumption.
  - intros x. apply daily_counts_cover, Hcov.
Qed.

(** C5 (amended). When the rows of one order all carry the same purchase
    date, the order counts of the Daily Orders table add up to the number
    of distinct order ids of the input. *)
Theorem daily_orders_totals (df : DataFrame) :
  one_date_per_order df ->
  counts_distinct (map order_id df)
    (sum_nat (map order_count (create_daily_orders_df df))).
Proof.
  intros Hone. rewrite (daily_counts_sum df Hone). apply nunique_counts_distinct.
Qed.

(** An order id that occurs under two purchase dates is counted on both
    days. And binary64 sums taken day by day and then added up need not
    equal the sum taken in one go: 0.1 on one day and 0.2, 0.3 on the next
    give 0.6 against 0.6000000000000001. *)
Lemma daily_orders_count_twice :
  sum_nat (map order_count (create_daily_orders_df [order_A; order_A_next_day])) = 2%nat /\
  nunique (map order_id [order_A; order_A_next_day]) = 1%nat /\
  sum_nat (map order_count (create_daily_orders_df [order_A; order_A_next_day]))
    <> nunique (map order_id [order_A; order_A_next_day]) /\
  ~ counts_distinct (map order_id [order_A; order_A_next_day])
      (sum_nat (map order_count (create_daily_orders_df [order_A; order_A_next_day]))) /\
  PrimFloat.eqb
    (sum_f64 (map sum_f64 [[0x1.999999999999ap-4]; [0x1.999999999999ap-3; 0x1.3333333333333p-2]]%float))
    (sum_f64 [0x1.999999999999ap-4; 0x1.999999999999ap-3; 0x1.3333333333333p-2]%float)
  = false.
Proof.
  split; [reflexivity|]. split; [reflexivity|].
  split; [vm_compute; discriminate|]. split; [|reflexivity].
  intros [l [Hnd [Hin Hlen]]].
  assert (Hincl : incl l ["A"%string]).
  { intros x Hx. apply Hin in Hx.
    destruct Hx as [E|[E|[]]]; injection E as <-; left; reflexivity. }
  pose proof (NoDup_incl_length Hnd Hincl) as Hle.
  rewrite Hlen in Hle. vm_compute in Hle. lia.
Qed.

Lemma daily_orders_totals_witness :
  one_date_per_order [order_A; order_B; order_C] /\
  counts_distinct (map order_id [order_A; order_B; order_C])
    (sum_nat (map order_count (create_daily_orders_df [order_A; order_B; order_C]))).
Proof.
  assert (H : one_date_per_order [order_A; order_B; order_C]).
  { intros r r' o [<-|[<-|[<-|[]]]] [<-|[<-|[<-|[]]]] E E';
      solve [reflexivity | vm_compute in E, E'; congruence]. }
  split; [exact H|].
  apply (daily_orders_totals [order_A; order_B; order_C]), H.
Defined.

(** ** The two sort kinds meet the interface *)

Section SortKinds.

Context {A : Type} (key : A -> nat).

Lemma insert_stable_perm (x : A) (l : list A) :
  Permutation (insert_stable key x l) (x :: l).
Proof.
  induction l as [|h t IH]; simpl; [reflexivity|].
  destruct (key x <? key h)%nat; [|reflexivity].
  rewrite IH. apply perm_swap.
Qed.

Lemma insert_stable_sorted (x : A) (l : list A) :
  descending key l -> descending key (insert_stable key x l).
Proof.
  unfold descending. induction 1 as [|h t Ht IH Hall]; simpl.
  - repeat constructor.
  - destruct (Nat.ltb_spec (key x) (key h)).
    + constructor; [exact IH|].
      apply (Permutation_Forall (Permutation_sym (insert_stable_perm x t))).
      constructor; [lia | exact Hall].
    + constructor; [constructor; assumption|].
      constructor; [lia|].
      eapply Forall_impl; [|exact Hall]. simpl. intros; lia.
Qed.

Lemma insert_after_ties_perm (x : A) (l : list A) :
  Permutation (insert_after_ties key x l) (x :: l).
Proof.
  induction l as [|h t IH]; simpl; [reflexivity|].
  destruct (key x <=? key h)%nat; [|reflexivity].
  rewrite IH. apply perm_swap.
Qed.

Lemma insert_after_ties_sorted (x : A) (l : list A) :
  descending key l -> descending key (insert_after_ties key x l).
Proof.
  unfold descending. induction 1 as [|h t Ht IH Hall]; simpl.
  - repeat constructor.
  - destruct (Nat.leb_spec (key x) (key h)).
    + constructor; [exact IH|].
      apply (Permutation_Forall (Permutation_sym (insert_after_ties_perm x t))).
      constructor; [lia | exact Hall].
    + constructor; [constructor; assumption|].
      constructor; [lia|].
      eapply Forall_impl; [|exact Hall]. simpl. intros; lia.
Qed.

End SortKinds.

#[export] Instance stable_sort_spec : SortValuesSpec stable_sort.
Proof.
  split; intros A key l; unfold sort_values_desc, stable_sort.
  - induction l as [|x l IH]; simpl; [reflexivity|].
    rewrite insert_stable_perm, IH. reflexivity.
  - induction l as [|x l IH]; simpl; [constructor|].
    apply insert_stable_sorted, IH.
Qed.

#[export] Instance tie_reversing_sort_spec : SortValuesSpec tie_reversing_sort.
Proof.
  split; intros A key l; unfold sort_values_desc, tie_reversing_sort.
  - induction l as [|x l IH]; simpl; [reflexivity|].
    rewrite insert_after_ties_perm, IH. reflexivity.
  - induction l as [|x l IH]; simpl; [constructor|].
    apply insert_after_ties_sorted, IH.
Qed.

(** ** The sorted tables *)

Section SortedTables.

Context {sv : SortValues} {spec : SortValuesSpec sv}.

Lemma city_table_perm (df : DataFrame) :
  Permutation (create_total_customer_by_city_df df)
              (map agg_city (groupby customer_city df)).
Proof. apply sort_values_perm. Qed.

Lemma category_table_perm (df : DataFrame) :
  Permutation (create_product_category_sales_df df)
              (map agg_category (groupby product_category_name_english df)).
Proof. apply sort_values_perm. Qed.

Lemma city_table_keys (df : DataFrame) :
  Permutation (map city (create_total_customer_by_city_df df))
              (group_keys customer_city df).
Proof.
  rewrite (Permutation_map city (city_table_perm df)).
  rewrite map_map. cbn [agg_city city].
  rewrite <- (map_map fst (fun k => k)), groupby_keys, map_id. reflexivity.
Qed.

Lemma category_table_keys (df : DataFrame) :
  Permutation (map category (create_product_category_sales_df df))
              (group_keys product_category_name_english df).
Proof.
  rewrite (Permutation_map category (category_table_perm df)).
  rewrite map_map. cbn [agg_category category].
  rewrite <- (map_map fst (fun k => k)), groupby_keys, map_id. reflexivity.
Qed.

End SortedTables.

(** C6 (amended). For every sort kind within the interface, the
    Customer-by-City table is in descending order of total_customer and the
    Product-Category Sales table in descending order of total_order; each is
    a rearrangement of its grouped table and so has one row per distinct
    key. The order of rows with equal counts is whatever the sort kind makes
    of the grouped table, whose groups come in ascending key order; it is a
    function of the input, so a second run gives the same order. *)
Theorem sorted_tables_descending {sv : SortValues} {spec : SortValuesSpec sv}
    (df : DataFrame) :
  descending total_customer (create_total_customer_by_city_df df) /\
  descending total_order (create_product_category_sales_df df) /\
  Permutation (create_total_customer_by_city_df df)
              (map agg_city (groupby customer_city df)) /\
  Permutation (create_product_category_sales_df df)
              (map agg_category (groupby product_category_name_english df)) /\
  StronglySorted str_lt (map fst (groupby customer_city df)) /\
  StronglySorted str_lt (map fst (groupby product_category_name_english df)).
Proof.
  split; [apply sort_values_sorted|].
  split; [apply sort_values_sorted|].
  split; [apply city_table_perm|].
  split; [apply category_table_perm|].
  rewrite !groupby_keys. split; apply unique_sorted_sorted.
Qed.

Lemma sorted_tables_descending_witness :
  descending total_customer
    (@create_total_customer_by_city_df stable_sort [order_A; order_B; order_C]) /\
  map category (@create_product_category_sales_df stable_sort [order_A; order_B; order_C])
    = ["toys"%string; "books"%string].
Proof.
  split; [|reflexivity].
  apply (@sorted_tables_descending stable_sort stable_sort_spec
           [order_A; order_B; order_C]).
Defined.

(** What becomes of rows with equal counts depends on the sort kind: on the
    same two cities the stable kind keeps the order of the grouped table and
    the other kind, which meets the interface as well, reverses it. *)
Lemma tie_order_depends_on_sort_kind :
  map fst (groupby customer_city [order_A; order_C]) = ["RJ"%string; "SP"%string] /\
  map city (@create_total_customer_by_city_df stable_sort [order_A; order_C])
    = ["RJ"%string; "SP"%string] /\
  map city (@create_total_customer_by_city_df tie_reversing_sort [order_A; order_C])
    = ["SP"%string; "RJ"%string] /\
  ~ ties_keep_order total_customer
      (map agg_city (groupby customer_city [order_A; order_C]))
      (@create_total_customer_by_city_df tie_reversing_sort [order_A; order_C]).
Proof.
  repeat split; try reflexivity.
  intros H.
  destruct (H 0%nat 1%nat _ _ ltac:(lia) eq_refl eq_refl eq_refl)
    as [i0 [j0 [Hlt [Hi Hj]]]].
  clear H.
  destruct i0 as [|[|i0]]; vm_compute in Hi;
    [discriminate Hi | | destruct i0; discriminate Hi].
  destruct j0 as [|[|j0]]; try lia.
  vm_compute in Hj. destruct j0; discriminate Hj.
Qed.

(** Two cities (and two categories) with one customer (one order) each, met
    in either order: the grouped table is the same both times, so no sort
    kind puts the tied rows in encounter order for both inputs. Nor does the
    interface make the sort keep tied rows in the order of the grouped
    table. *)
Lemma tied_rows_order_not_as_claimed :
  ~ (exists sv : SortValues, SortValuesSpec sv /\
       ties_in_encounter_order city total_customer customer_city
         [order_A; order_C] (create_total_customer_by_city_df [order_A; order_C]) /\
       ties_in_encounter_order city total_customer customer_city
         [order_C; order_A] (create_total_customer_by_city_df [order_C; order_A])) /\
  ~ (exists sv : SortValues, SortValuesSpec sv /\
       ties_in_encounter_order category total_order product_category_name_english
         [order_A; order_C] (create_product_category_sales_df [order_A; order_C]) /\
       ties_in_encounter_order category total_order product_category_name_english
         [order_C; order_A] (create_product_category_sales_df [order_C; order_A])) /\
  ~ (forall sv : SortValues, SortValuesSpec sv -> forall df,
       ties_keep_order total_customer
         (map agg_city (groupby customer_city df))
         (create_total_customer_by_city_df df)).
Proof.
  split; [|split]; [intros [sv [spec [H1 H2]]] | intros [sv [spec [H1 H2]]] | ].
  - pose proof (city_table_perm [order_A; order_C]) as P.
    unfold create_total_customer_by_city_df in *.
    change (map agg_city (groupby customer_city [order_C; order_A]))
      with (map agg_city (groupby customer_city [order_A; order_C])) in H2.
    let L := eval vm_compute in
               (map agg_city (groupby customer_city [order_A; order_C])) in
    change (map agg_city (groupby customer_city [order_A; order_C])) with L in *.
    apply Permutation_sym, Permutation_length_2_inv in P.
    destruct P as [E|E]; rewrite E in H1, H2.
    + specialize (H1 0%nat 1%nat _ _ ltac:(lia) eq_refl eq_refl eq_refl).
      vm_compute in H1. lia.
    + specialize (H2 0%nat 1%nat _ _ ltac:(lia) eq_refl eq_refl eq_refl).
      vm_compute in H2. lia.
  - pose proof (category_table_perm [order_A; order_C]) as P.
    unfold create_product_category_sales_df in *.
    change (map agg_category (groupby product_category_name_english [order_C; order_A]))
      with (map agg_category (groupby product_category_name_english [order_A; order_C])) in H2.
    let L := eval vm_compute in
               (map agg_category
                  (groupby product_category_name_english [order_A; order_C])) in
    change (map agg_category
              (groupby product_category_name_english [order_A; order_C]))
      with L in *.
    apply Permutation_sym, Permutation_length_2_inv in P.
    destruct P as [E|E]; rewrite E in H1, H2.
    + specialize (H1 0%nat 1%nat _ _ ltac:(lia) eq_refl eq_refl eq_refl).
      vm_compute in H1. lia.
    + specialize (H2 0%nat 1%nat _ _ ltac:(lia) eq_refl eq_refl eq_refl).
      vm_compute in H2. lia.
  - intros H. apply tie_order_depends_on_sort_kind.
    apply (H tie_reversing_sort tie_reversing_sort_spec).
Qed.

(** C7. When every customer is attributed to exactly one city, the
    total_customer values of the Customer-by-City table add up to the number
    of distinct customer ids of the input. *)
Theorem city_customers_add_up {sv : SortValues} {spec : SortValuesSpec sv}
    (df : DataFrame) :
  one_city_per_customer df ->
  counts_distinct (map customer_unique_id df)
    (sum_nat (map total_customer (create_total_customer_by_city_df df))).
Proof.
  intros Hone.
  assert (E : sum_nat (map total_customer (create_total_customer_by_city_df df))
              = nunique (map customer_unique_id df)).
  { rewrite (sum_nat_perm _ _ (Permutation_map total_customer (city_table_perm df))).
    unfold groupby. rewrite !map_map. cbn [agg_city total_customer snd].
    rewrite <- (map_map
      (fun k => map customer_unique_id (get_group customer_city k df)) nunique).
    apply nunique_disjoint_cover.
    - apply pairwise_disjoint_bins; [apply group_keys_NoDup|].
      intros k k' c Hc Hc'. apply in_map_iff in Hc, Hc'.
      destruct Hc as [r [Er Hr]]. destruct Hc' as [r' [Er' Hr']].
      apply get_group_In in Hr, Hr'. destruct Hr as [Hr Hk]. destruct Hr' as [Hr' Hk'].
      destruct (Hone r c Hr Er) as [k0 [_ Hall]].
      rewrite (Hall r k Hr Er Hk), (Hall r' k' Hr' Er' Hk'). reflexivity.
    - intros c. rewrite in_map_iff. split.
      + intros [r [Er Hr]].
        destruct (Hone r c Hr Er) as [k [[r0 [Hr0 [Ec Ek]]] _]].
        exists (map customer_unique_id (get_group customer_city k df)). split.
        * apply in_map_iff. exists k. split; [reflexivity|].
          apply group_keys_In. eauto.
        * apply in_map_iff. exists r0. split; [exact Ec|].
          apply get_group_In. tauto.
      + intros [a [Ha Hc]]. apply in_map_iff in Ha. destruct Ha as [k [<- _]].
        apply in_map_iff in Hc. destruct Hc as [r [Er Hr]].
        apply get_group_In in Hr. exists r. tauto. }
  rewrite E. apply nunique_counts_distinct.
Qed.

(** The proviso holds on a frame where a customer has one row that names a
    city and one that names none. *)
Lemma city_customers_add_up_witness :
  one_city_per_customer [order_A; order_B_no_city; order_C] /\
  counts_distinct (map customer_unique_id [order_A; order_B_no_city; order_C])
    (sum_nat (map total_customer
       (@create_total_customer_by_city_df stable_sort
          [order_A; order_B_no_city; order_C]))).
Proof.
  assert (H : one_city_per_customer [order_A; order_B_no_city; order_C]).
  { intros r c [<-|[<-|[<-|[]]]] E; injection E as <-.
    - exists "SP"%string. split.
      + exists order_A. split; [left; reflexivity | split; reflexivity].
      + intros r' k' [<-|[<-|[<-|[]]]] E' Ek; vm_compute in E', Ek; congruence.
    - exists "SP"%string. split.
      + exists order_A. split; [left; reflexivity | split; reflexivity].
      + intros r' k' [<-|[<-|[<-|[]]]] E' Ek; vm_compute in E', Ek; congruence.
    - exists "RJ"%string. split.
      + exists order_C. split; [right; right; left; reflexivity | split; reflexivity].
      + intros r' k' [<-|[<-|[<-|[]]]] E' Ek; vm_compute in E', Ek; congruence. }
  split; [exact H|].
  apply (@city_customers_add_up stable_sort stable_sort_spec
           [order_A; order_B_no_city; order_C]), H.
Defined.

(** A customer with orders in two cities is counted in both. *)
Lemma city_customers_two_cities :
  sum_nat (map total_customer
             (@create_total_customer_by_city_df stable_sort [order_A; order_B_other_city]))
    = 2%nat /\
  nunique (map customer_unique_id [order_A; order_B_other_city]) = 1%nat.
Proof. split; reflexivity. Qed.

(** C9. On the empty frame the Daily Orders, the Customer-by-City and the
    Product-Category Sales tables are empty. The RFM table is not: it has
    95420 rows, each with a label and with no customer, recency, frequency
    or monetary. *)
Theorem empty_input_tables {sv : SortValues} {spec : SortValuesSpec sv} :
  create_daily_orders_df [] = [] /\
  create_total_customer_by_city_df [] = [] /\
  create_product_category_sales_df [] = [] /\
  N.of_nat (List.length (create_rfm_df [])) = 95420%N /\
  create_rfm_df [] <> [] /\
  (forall x, In x (create_rfm_df []) ->
     rfm_customer_unique_id x = None /\ recency x = None /\
     frequency x = None /\ monetary x = None /\
     exists l, customer_label_id x = Some l).
Proof.
  assert (Hno : ~ some_customer []) by (intros [r [c [[] _]]]).
  split; [reflexivity|].
  split; [apply Permutation_nil, Permutation_sym, (city_table_perm [])|].
  split; [apply Permutation_nil, Permutation_sym, (category_table_perm [])|].
  split; [apply (rfm_length_without_customer [] Hno)|]. split.
  - intros E. pose proof (rfm_length_without_customer [] Hno) as L.
    rewrite E in L. discriminate L.
  - intros x. apply rfm_row_without_customer, Hno.
Qed.

Lemma empty_input_tables_witness :
  @create_total_customer_by_city_df stable_sort [] = [] /\
  @create_product_category_sales_df stable_sort [] = [].
Proof.
  pose proof (@empty_input_tables stable_sort stable_sort_spec) as H.
  split; apply H.
Defined.

(** C10. Rows whose grouping key is missing take no part in the grouping:
    each of the three tables is the same as the table of the input without
    these rows. Every key of the Customer-by-City and of the
    Product-Category Sales table is the key of a row of the input, and so
    is every customer of the RFM table when some row has a customer id. On
    a frame whose only row has no customer id the RFM table has 95420 rows,
    all with a missing customer id. *)
Theorem missing_keys_excluded {sv : SortValues} {spec : SortValuesSpec sv} :
  (forall df,
     create_total_customer_by_city_df (filter (has_key customer_city) df)
       = create_total_customer_by_city_df df /\
     create_product_category_sales_df
         (filter (has_key product_category_name_english) df)
       = create_product_category_sales_df df /\
     create_rfm_df (filter (has_key customer_unique_id) df) = create_rfm_df df /\
     (forall x, In x (create_total_customer_by_city_df df) ->
        exists r, In r df /\ customer_city r = Some (city x)) /\
     (forall x, In x (create_product_category_sales_df df) ->
        exists r, In r df /\ product_category_name_english r = Some (category x)) /\
     (some_customer df -> forall x, In x (create_rfm_df df) ->
        exists r, In r df /\ customer_unique_id r = rfm_customer_unique_id x
                  /\ rfm_customer_unique_id x <> None)) /\
  N.of_nat (List.length (create_rfm_df [keyless_line])) = 95420%N /\
  (forall x, In x (create_rfm_df [keyless_line]) -> rfm_customer_unique_id x = None).
Proof.
  split; [intros df; split; [|split; [|split; [|split; [|split]]]]|].
  - unfold create_total_customer_by_city_df. rewrite groupby_has_key. reflexivity.
  - unfold create_product_category_sales_df. rewrite groupby_has_key. reflexivity.
  - unfold create_rfm_df. rewrite groupby_has_key. reflexivity.
  - intros x Hx. apply (group_keys_In customer_city).
    apply (Permutation_in _ (city_table_keys df)), in_map, Hx.
  - intros x Hx. apply (group_keys_In product_category_name_english).
    apply (Permutation_in _ (category_table_keys df)), in_map, Hx.
  - intros Hsome x Hx. destruct (rfm_row_inv df x Hsome Hx) as [c [Hc Hx']].
    cbv zeta in Hx'. destruct Hx' as [[r Hr] _]. apply get_group_In in Hr.
    exists r. rewrite Hc. split; [tauto|]. split; [tauto | discriminate].
  - assert (Hno : ~ some_customer [keyless_line]).
    { intros [r [c [[<-|[]] E]]]. discriminate E. }
    split; [apply (rfm_length_without_customer _ Hno)|].
    intros x Hx. apply (rfm_row_without_customer _ x Hno Hx).
Qed.

Lemma missing_keys_excluded_witness :
  @create_total_customer_by_city_df stable_sort [order_A; keyless_line; order_C]
    = @create_total_customer_by_city_df stable_sort [order_A; order_C] /\
  map monetary (create_rfm_df [order_A; keyless_line; order_C])
    = map monetary (create_rfm_df [order_A; order_C]).
Proof.
  pose proof (proj1 (@missing_keys_excluded stable_sort stable_sort_spec)
                [order_A; keyless_line; order_C]) as H.
  split.
  - rewrite <- (proj1 H). reflexivity.
  - rewrite <- (proj1 (proj2 (proj2 H))). reflexivity.
Defined.

(** ** The worked example of the specification

    Orders A and B of customer X in "SP" (toys, 100 and 50, on 2018-01-01
    and 2018-01-02) and order C of customer Y in "RJ" (books, 200, on
    2018-01-01). *)

Example example_daily_orders :
  map (fun x => (order_date x, order_count x, revenue x))
      (create_daily_orders_df [order_A; order_B; order_C])
  = [(days_from_civil 2018 1 1, 2%nat, 300%Q);
     (days_from_civil 2018 1 2, 1%nat, 50%Q)].
Proof. reflexivity. Qed.

Example example_customers_by_city :
  map (fun x => (city x, total_customer x))
      (@create_total_customer_by_city_df stable_sort [order_A; order_B; order_C])
  = [("RJ"%string, 1%nat); ("SP"%string, 1%nat)].
Proof. reflexivity. Qed.

Example example_category_sales :
  map (fun x => (category x, total_order x, total_price x))
      (@create_product_category_sales_df stable_sort [order_A; order_B; order_C])
  = [("toys"%string, 2%nat, 150%Q); ("books"%string, 1%nat, 200%Q)].
Proof. reflexivity. Qed.

Example example_rfm :
  map (fun x => (rfm_customer_unique_id x, frequency x, monetary x, customer_label_id x))
      (create_rfm_df [order_A; order_B; order_C])
  = [(Some "X"%string, Some 2%nat, Some 150%Q, Some "C0"%string);
     (Some "Y"%string, Some 1%nat, Some 200%Q, Some "C1"%string)].
Proof. reflexivity. Qed.

(** * The rest of the script *)

(** ** The date filter and its widget *)

Lemma filter_all {A : Type} (f : A -> bool) (l : list A) :
  (forall x, In x l -> f x = true) -> filter f l = l.
Proof.
  induction l as [|x l IH]; intros H; simpl; [reflexivity|].
  rewrite (H x (or_introl eq_refl)), IH; [reflexivity|].
  intros y Hy. apply H. right. exact Hy.
Qed.

Lemma filter_none {A : Type} (f : A -> bool) (l : list A) :
  (forall x, In x l -> f x = false) -> filter f l = [].
Proof.
  induction l as [|x l IH]; intros H; simpl; [reflexivity|].
  rewrite (H x (or_introl eq_refl)). apply IH.
  intros y Hy. apply H. right. exact Hy.
Qed.

Lemma min_ts_spec (l : list Z) (x : Z) :
  In x l ->
  exists m, min_ts l = Some m /\ In m l /\ forall y, In y l -> m <= y.
Proof.
  destruct l as [|h t]; simpl; [tauto|]. intros _.
  exists (fold_left Z.min t h). split; [reflexivity|]. split.
  - destruct (fold_left_min_In t h) as [->|H]; tauto.
  - intros y [<-|Hy]; [apply fold_left_min_le | apply fold_left_min_lower, Hy].
Qed.

Lemma dt_date_mono (a b : Z) : a <= b -> dt_date a <= dt_date b.
Proof. intros H. apply Z.div_le_mono; [reflexivity | exact H]. Qed.

(** X1. The script does not reject a range whose start lies after its end: the
    filter then keeps no row. *)
Theorem date_filter_reversed_range (s e : Z) (df : DataFrame) :
  e < s -> main_df s e df = [].
Proof.
  intros H. unfold main_df. apply filter_none. intros r _.
  destruct (Z.leb_spec s (purchase_date r)); [|reflexivity].
  destruct (Z.leb_spec (purchase_date r) e); [lia | reflexivity].
Qed.

Lemma date_filter_reversed_range_witness :
  main_df 17533 17532 [order_A; order_B; order_C] = [].
Proof. apply date_filter_reversed_range. lia. Defined.

(** X2. Filtering a filtered frame is filtering once with the later start and
    the earlier end; in particular the filter is idempotent. *)
Theorem date_filter_narrowing (s e s' e' : Z) (df : DataFrame) :
  main_df s e (main_df s' e' df) = main_df (Z.max s s') (Z.min e e') df /\
  main_df s e (main_df s e df) = main_df s e df.
Proof.
  assert (G : forall a b a' b',
    main_df a b (main_df a' b' df) = main_df (Z.max a a') (Z.min b b') df).
  { intros a b a' b'. unfold main_df.
    induction df as [|r t IH]; simpl; [reflexivity|].
    destruct (Z.leb_spec a' (purchase_date r)), (Z.leb_spec (purchase_date r) b');
      simpl;
      destruct (Z.leb_spec a (purchase_date r)), (Z.leb_spec (purchase_date r) b);
      destruct (Z.leb_spec (Z.max a a') (purchase_date r)),
               (Z.leb_spec (purchase_date r) (Z.min b b'));
      simpl; rewrite ?IH; try reflexivity; lia. }
  split; [apply G|].
  rewrite G, Z.max_id, Z.min_id. reflexivity.
Qed.

(** X3. With the default value of the date widget, the dates of the earliest
    and of the latest purchase, the filter keeps every row. *)
Theorem date_filter_default_range (df : DataFrame) (lo hi : Z) :
  min_date df = Some lo -> max_date df = Some hi ->
  main_df (dt_date lo) (dt_date hi) df = df.
Proof.
  unfold min_date, max_date. intros Hlo Hhi.
  unfold main_df. apply filter_all. intros r Hr.
  pose proof (in_map order_purchase_timestamp _ _ Hr) as Hts.
  destruct (min_ts_spec _ _ Hts) as [m [Em [_ Hmin]]].
  destruct (max_ts_spec _ _ Hts) as [M [EM [_ Hmax]]].
  rewrite Hlo in Em. rewrite Hhi in EM.
  injection Em as <-. injection EM as <-.
  apply in_range_test. unfold in_range, purchase_date.
  split; apply dt_date_mono; [apply Hmin | apply Hmax]; exact Hts.
Qed.

Lemma date_filter_default_range_witness :
  main_df (dt_date (Timestamp 2018 1 1 10 0 0)) (dt_date (Timestamp 2018 1 2 10 0 0))
          [order_A; order_B; order_C]
  = [order_A; order_B; order_C].
Proof.
  apply (date_filter_default_range [order_A; order_B; order_C]); reflexivity.
Defined.

(** X4. The days added by the resampling never leave the filter range: every
    date of the Daily Orders table of a filtered frame lies in the range. *)
Theorem daily_orders_within_filter (s e : Z) (df : DataFrame) (x : DailyRow) :
  In x (create_daily_orders_df (main_df s e df)) -> s <= order_date x <= e.
Proof.
  intros Hx.
  destruct (daily_orders_rows (main_df s e df)) as [lo [hi [E [_ Hends]]]].
  rewrite E in Hx. apply in_map_iff in Hx. destruct Hx as [d [<- Hd]].
  cbn [order_date]. apply day_range_In in Hd.
  destruct (Hends d Hd) as [r1 [r2 [H1 [H2 [E1 E2]]]]].
  unfold main_df in H1, H2. apply filter_In in H1, H2.
  destruct H1 as [_ H1]. destruct H2 as [_ H2].
  apply in_range_test in H1, H2. unfold in_range in *. lia.
Qed.

Lemma daily_orders_within_filter_witness :
  exists x, In x (create_daily_orders_df (main_df 17532 17534 [order_A; order_D])) /\
            17532 <= order_date x <= 17534.
Proof.
  eexists. split; [left; reflexivity|].
  apply (daily_orders_within_filter 17532 17534 [order_A; order_D]).
  left. reflexivity.
Defined.

(** ** The metrics *)

(** X5. The "Total orders" metric never falls short of the number of distinct
    orders of the filtered frame; it exceeds it only when an order id occurs
    under several purchase dates. *)
Theorem metrics_of_daily_orders (df : DataFrame) (n : nat) :
  counts_distinct (map order_id df) n ->
  (n <= total_orders (create_daily_orders_df df))%nat /\
  ((n < total_orders (create_daily_orders_df df))%nat ->
   exists r r' o, In r df /\ In r' df /\ order_id r = Some o /\ order_id r' = Some o
                  /\ purchase_date r <> purchase_date r').
Proof.
  intros Hn. apply counts_distinct_nunique in Hn. subst n.
  unfold total_orders.
  destruct (daily_orders_rows df) as [lo [hi [E [Hcov _]]]].
  split.
  - rewrite E, map_map. cbn [order_count].
    rewrite <- (map_map (fun d => map order_id (on_day d df)) nunique).
    apply nunique_cover_le. intros x Hx.
    apply (daily_counts_cover df lo hi x Hcov), Hx.
  - intros Hlt.
    assert (Hnot : ~ one_date_per_order df).
    { intros Hone. rewrite (daily_counts_sum df Hone) in Hlt. lia. }
    clear - Hnot. unfold one_date_per_order in Hnot.
    assert (D1 : forall (r : Row) (m : DataFrame),
      (exists r' o, In r' m /\ order_id r = Some o /\ order_id r' = Some o
                    /\ purchase_date r <> purchase_date r') \/
      (forall r' o, In r' m -> order_id r = Some o -> order_id r' = Some o ->
                    purchase_date r = purchase_date r')).
    { intros r. induction m as [|r' m IH].
      - right. intros r' o [].
      - destruct IH as [[r'' [o [H1 H2]]]|IH].
        + left. exists r'', o. split; [right; exact H1 | exact H2].
        + destruct (order_id r) as [o|] eqn:Eo.
          * destruct (order_id r') as [o'|] eqn:Eo'.
            -- destruct (string_dec o o') as [<-|No].
               ++ destruct (Z.eq_dec (purchase_date r) (purchase_date r')) as [Ed|Nd].
                  ** right. intros r'' o2 [<-|H]; [intros; exact Ed | apply IH, H].
                  ** left. exists r', o. split; [left; reflexivity | tauto].
               ++ right. intros r'' o2 [<-|H]; [|apply IH, H].
                  intros E1 E2. rewrite Eo' in E2. congruence.
            -- right. intros r'' o2 [<-|H]; [|apply IH, H].
               intros _ E2. rewrite Eo' in E2. discriminate.
          * right. intros r'' o2 _ E1. discriminate. }
    assert (D : forall l : DataFrame,
      (exists r r' o, In r l /\ In r' df /\ order_id r = Some o
                      /\ order_id r' = Some o
                      /\ purchase_date r <> purchase_date r') \/
      (forall r r' o, In r l -> In r' df -> order_id r = Some o ->
                      order_id r' = Some o -> purchase_date r = purchase_date r')).
    { induction l as [|r l IH].
      - right. intros r r' o [].
      - destruct IH as [[r0 [r1 [o [H0 H1]]]]|IH].
        + left. exists r0, r1, o. split; [right; exact H0 | exact H1].
        + destruct (D1 r df) as [[r' [o [H1 H2]]]|Hr].
          * left. exists r, r', o. split; [left; reflexivity | tauto].
          * right. intros r0 r' o [<-|H0]; [apply Hr | apply IH, H0]. }
    destruct (D df) as [H|H]; [exact H | contradiction].
Qed.

Lemma metrics_of_daily_orders_witness :
  counts_distinct (map order_id [order_A; order_A_next_day]) 1 /\
  (1 <= total_orders (create_daily_orders_df [order_A; order_A_next_day]))%nat.
Proof.
  assert (H : counts_distinct (map order_id [order_A; order_A_next_day]) 1)
    by apply (nunique_counts_distinct (map order_id [order_A; order_A_next_day])).
  split; [exact H|].
  apply (metrics_of_daily_orders [order_A; order_A_next_day] 1 H).
Defined.

(** ** Bounds of the grouped tables *)

Lemma nunique_le_length (l : list (option string)) :
  (nunique l <= List.length l)%nat.
Proof.
  unfold nunique.
  assert (H : (List.length (dropna l) <= List.length l)%nat).
  { induction l as [|[x|] t IH]; simpl; lia. }
  assert (H' : (List.length (nodup string_dec (dropna l))
                <= List.length (dropna l))%nat).
  { apply NoDup_incl_length; [apply NoDup_nodup|].
    intros x Hx. apply nodup_In in Hx. exact Hx. }
  lia.
Qed.

Lemma nunique_incl (l m : list (option string)) :
  (forall x, In (Some x) l -> In (Some x) m) -> (nunique l <= nunique m)%nat.
Proof.
  intros H. unfold nunique. apply NoDup_incl_length; [apply NoDup_nodup|].
  intros x Hx. apply nodup_In, dropna_In. apply nodup_In, dropna_In in Hx.
  apply H, Hx.
Qed.

Lemma dropna_map_Some {A : Type} (l : list A) : dropna (map Some l) = l.
Proof. induction l as [|x t IH]; simpl; [|rewrite IH]; reflexivity. Qed.

Lemma with_key_In (by_ : Row -> option string) (r : Row) (df : DataFrame) :
  In r (with_key by_ df) <-> In r df /\ exists k, by_ r = Some k.
Proof.
  unfold with_key, has_key. rewrite filter_In. split.
  - intros [Hr Hk]. split; [exact Hr|]. destruct (by_ r); [eauto | discriminate].
  - intros [Hr [k Hk]]. rewrite Hk. tauto.
Qed.

Lemma rfm_column {B : Type} (f : string * DataFrame -> B) (df : DataFrame) :
  map (fun ig => f (snd ig)) (with_index 0 (groupby customer_unique_id df))
  = map f (groupby customer_unique_id df).
Proof.
  rewrite <- (map_map snd f), with_index_snd. reflexivity.
Qed.

(** X6. In a frame where some row has a customer id, no row of the RFM table
    lacks a customer id and the ids are strictly ascending, so that the
    positional labels follow the order of the ids. The frequency column adds
    up to at least the number of distinct order ids of the rows that have a
    customer id, and every frequency is at most the number of rows of its
    customer. *)
Theorem rfm_table_totals (df : DataFrame) :
  some_customer df ->
  map rfm_customer_unique_id (create_rfm_df df)
    = map Some (dropna (map rfm_customer_unique_id (create_rfm_df df))) /\
  StronglySorted str_lt (dropna (map rfm_customer_unique_id (create_rfm_df df))) /\
  (forall n, counts_distinct (map order_id (with_key customer_unique_id df)) n ->
     (n <= sum_nat (dropna (map frequency (create_rfm_df df))))%nat) /\
  (forall x, In x (create_rfm_df df) ->
     exists c f, rfm_customer_unique_id x = Some c /\ frequency x = Some f /\
       (f <= List.length (get_group customer_unique_id c df))%nat).
Proof.
  intros Hsome. split; [|split; [|split]].
  - rewrite (rfm_customers df Hsome), dropna_map_Some. reflexivity.
  - rewrite (rfm_customers df Hsome), dropna_map_Some. apply unique_sorted_sorted.
  - intros n Hn. apply counts_distinct_nunique in Hn. subst n.
    rewrite (rfm_of_groups df Hsome), map_map. unfold rfm_row. cbn [frequency].
    rewrite <- (map_map (fun ig => nunique (map order_id (snd (snd ig)))) Some).
    rewrite dropna_map_Some.
    rewrite (rfm_column (fun g => nunique (map order_id (snd g)))).
    unfold groupby. rewrite map_map. cbn [snd].
    rewrite <- (map_map (fun k => map order_id (get_group customer_unique_id k df)) nunique).
    apply nunique_cover_le. intros o Ho. apply in_map_iff in Ho.
    destruct Ho as [r [Eo Hr]]. apply with_key_In in Hr. destruct Hr as [Hr [c Ec]].
    exists (map order_id (get_group customer_unique_id c df)). split.
    + apply in_map_iff. exists c. split; [reflexivity|]. apply group_keys_In. eauto.
    + apply in_map_iff. exists r. split; [exact Eo | apply get_group_In; tauto].
  - intros x Hx. destruct (rfm_row_inv df x Hsome Hx) as [c [Hc Hx']].
    cbv zeta in Hx'. destruct Hx' as [_ [_ [Hf _]]].
    exists c, (nunique (map order_id (get_group customer_unique_id c df))).
    split; [exact Hc|]. split; [exact Hf|].
    rewrite <- (length_map order_id). apply nunique_le_length.
Qed.

Lemma rfm_table_totals_witness :
  some_customer [order_A; order_B; order_C] /\
  dropna (map rfm_customer_unique_id (create_rfm_df [order_A; order_B; order_C]))
    = ["X"; "Y"]%string /\
  StronglySorted str_lt
    (dropna (map rfm_customer_unique_id (create_rfm_df [order_A; order_B; order_C]))).
Proof.
  assert (H : some_customer [order_A; order_B; order_C]).
  { exists order_A, "X"%string. split; [left; reflexivity | reflexivity]. }
  split; [exact H|]. split; [reflexivity|].
  apply (rfm_table_totals [order_A; order_B; order_C] H).
Defined.

(** A mean is missing exactly when no cell of the column is present. *)
Lemma mean_Q_missing (l : list (option Q)) :
  mean_Q l = None <-> forall v, ~ In (Some v) l.
Proof.
  unfold mean_Q. destruct (dropna l) as [|x xs] eqn:E.
  - split; [|reflexivity]. intros _ v Hv. apply dropna_In in Hv.
    rewrite E in Hv. exact Hv.
  - split; [discriminate|]. intros H. exfalso. apply (H x), dropna_In.
    rewrite E. left. reflexivity.
Qed.

Section GroupedTables.

Context {sv : SortValues} {spec : SortValuesSpec sv}.

Lemma city_row_inv (df : DataFrame) (x : CityRow) :
  In x (create_total_customer_by_city_df df) ->
  In (city x) (group_keys customer_city df) /\
  x = agg_city (city x, get_group customer_city (city x) df).
Proof.
  intros Hx. apply (Permutation_in _ (city_table_perm df)) in Hx.
  apply in_map_iff in Hx. destruct Hx as [g [<- Hg]].
  apply groupby_In in Hg. destruct Hg as [Hk Hg].
  cbn [agg_city city]. split; [exact Hk|].
  rewrite <- Hg. destruct g; reflexivity.
Qed.

Lemma category_row_inv (df : DataFrame) (x : CategoryRow) :
  In x (create_product_category_sales_df df) ->
  In (category x) (group_keys product_category_name_english df) /\
  x = agg_category
        (category x, get_group product_category_name_english (category x) df).
Proof.
  intros Hx. apply (Permutation_in _ (category_table_perm df)) in Hx.
  apply in_map_iff in Hx. destruct Hx as [g [<- Hg]].
  apply groupby_In in Hg. destruct Hg as [Hk Hg].
  cbn [agg_category category]. split; [exact Hk|].
  rewrite <- Hg. destruct g; reflexivity.
Qed.

(** X7. The Product-Category Sales table has exactly one row for every
    category that occurs in the frame. Its total_order column adds up to at
    least the number of distinct order ids of the rows that have a category.
    In every row total_order and total_product are at most the number of
    rows of the category, and each is at least 1 exactly when one of these
    rows carries an order id, respectively a product id. *)
Theorem category_sales_totals (df : DataFrame) :
  NoDup (map category (create_product_category_sales_df df)) /\
  (forall k, In k (map category (create_product_category_sales_df df)) <->
             exists r, In r df /\ product_category_name_english r = Some k) /\
  (forall n,
     counts_distinct (map order_id (with_key product_category_name_english df)) n ->
     (n <= sum_nat (map total_order (create_product_category_sales_df df)))%nat) /\
  (forall x, In x (create_product_category_sales_df df) ->
     let rows := get_group product_category_name_english (category x) df in
     (total_order x <= List.length rows)%nat /\
     (total_product x <= List.length rows)%nat /\
     ((1 <= total_order x)%nat <-> exists r o, In r rows /\ order_id r = Some o) /\
     ((1 <= total_product x)%nat <-> exists r p, In r rows /\ product_id r = Some p)).
Proof.
  pose proof (category_table_perm df) as P.
  split; [|split; [|split]].
  - apply (Permutation_NoDup (Permutation_sym (category_table_keys df))).
    apply group_keys_NoDup.
  - intros k. rewrite <- (group_keys_In product_category_name_english). split.
    + apply (Permutation_in _ (category_table_keys df)).
    + apply (Permutation_in _ (Permutation_sym (category_table_keys df))).
  - intros n Hn. apply counts_distinct_nunique in Hn. subst n.
    rewrite (sum_nat_perm _ _ (Permutation_map total_order P)).
    unfold groupby. rewrite !map_map. cbn [agg_category total_order snd].
    rewrite <- (map_map
      (fun k => map order_id (get_group product_category_name_english k df)) nunique).
    apply nunique_cover_le. intros o Ho. apply in_map_iff in Ho.
    destruct Ho as [r [Eo Hr]]. apply with_key_In in Hr. destruct Hr as [Hr [c Ec]].
    exists (map order_id (get_group product_category_name_english c df)). split.
    + apply in_map_iff. exists c. split; [reflexivity|]. apply group_keys_In. eauto.
    + apply in_map_iff. exists r. split; [exact Eo | apply get_group_In; tauto].
  - intros x Hx rows. destruct (category_row_inv df x Hx) as [_ Ex].
    assert (Eo : total_order x = nunique (map order_id rows))
      by (rewrite Ex at 1; reflexivity).
    assert (Ep : total_product x = nunique (map product_id rows))
      by (rewrite Ex at 1; reflexivity).
    rewrite Eo, Ep. split; [|split; [|split]].
    + rewrite <- (length_map order_id). apply nunique_le_length.
    + rewrite <- (length_map product_id). apply nunique_le_length.
    + rewrite nunique_pos_iff. split.
      * intros [o Ho]. apply in_map_iff in Ho. destruct Ho as [r [E Hr]]. eauto.
      * intros [r [o [Hr E]]]. exists o. apply in_map_iff. eauto.
    + rewrite nunique_pos_iff. split.
      * intros [p Hp]. apply in_map_iff in Hp. destruct Hp as [r [E Hr]]. eauto.
      * intros [r [p [Hr E]]]. exists p. apply in_map_iff. eauto.
Qed.

(** X8. The Customer-by-City table has exactly one row for every city that
    occurs in the frame. Every total_customer is at most the number of
    distinct customers of the frame and is 0 exactly when no row of the city
    has a customer id. Summed over the cities, total_customer never falls
    short of the number of distinct customers among the rows that have a
    city: a customer is counted once in every city they ordered from. *)
Theorem city_table_bounds (df : DataFrame) :
  NoDup (map city (create_total_customer_by_city_df df)) /\
  (forall k, In k (map city (create_total_customer_by_city_df df)) <->
             exists r, In r df /\ customer_city r = Some k) /\
  (forall x, In x (create_total_customer_by_city_df df) ->
     (forall n, counts_distinct (map customer_unique_id df) n ->
                (total_customer x <= n)%nat) /\
     (total_customer x = 0%nat <->
      forall r, In r df -> customer_city r = Some (city x) ->
                customer_unique_id r = None)) /\
  (forall n, counts_distinct (map customer_unique_id (with_key customer_city df)) n ->
     (n <= sum_nat (map total_customer (create_total_customer_by_city_df df)))%nat).
Proof.
  split; [|split; [|split]].
  - apply (Permutation_NoDup (Permutation_sym (city_table_keys df))).
    apply group_keys_NoDup.
  - intros k. rewrite <- (group_keys_In customer_city). split.
    + apply (Permutation_in _ (city_table_keys df)).
    + apply (Permutation_in _ (Permutation_sym (city_table_keys df))).
  - intros x Hx. destruct (city_row_inv df x Hx) as [_ Ex].
    assert (Et : total_customer x
                 = nunique (map customer_unique_id
                              (get_group customer_city (city x) df)))
      by (rewrite Ex at 1; reflexivity).
    rewrite Et. clear Et Ex. split.
    + intros n Hn. apply counts_distinct_nunique in Hn. subst n.
      apply nunique_incl. intros c Hc.
      apply in_map_iff in Hc. destruct Hc as [r [E Hr]].
      apply get_group_In in Hr. apply in_map_iff. exists r. tauto.
    + split.
      * intros H0 r Hr Ec.
        destruct (customer_unique_id r) as [c|] eqn:E; [|reflexivity]. exfalso.
        assert (Hpos : (1 <= nunique (map customer_unique_id
                              (get_group customer_city (city x) df)))%nat).
        { apply (nunique_pos _ c), in_map_iff. exists r.
          split; [exact E | apply get_group_In; tauto]. }
        lia.
      * intros Hnone.
        destruct (Nat.eq_dec (nunique (map customer_unique_id
                    (get_group customer_city (city x) df))) 0) as [E|N];
          [exact E|exfalso].
        assert (Hpos : (1 <= nunique (map customer_unique_id
                              (get_group customer_city (city x) df)))%nat) by lia.
        apply nunique_pos_iff in Hpos. destruct Hpos as [c Hc].
        apply in_map_iff in Hc. destruct Hc as [r [Er Hr]].
        apply get_group_In in Hr. rewrite (Hnone r) in Er; [discriminate|tauto|tauto].
  - intros n Hn. apply counts_distinct_nunique in Hn. subst n.
    rewrite (sum_nat_perm _ _ (Permutation_map total_customer (city_table_perm df))).
    unfold groupby. rewrite !map_map. cbn [agg_city total_customer snd].
    rewrite <- (map_map
      (fun k => map customer_unique_id (get_group customer_city k df)) nunique).
    apply nunique_cover_le. intros c Hc.
    apply in_map_iff in Hc. destruct Hc as [r [Er Hr]].
    apply with_key_In in Hr. destruct Hr as [Hr [k Ek]].
    exists (map customer_unique_id (get_group customer_city k df)). split.
    + apply in_map_iff. exists k. split; [reflexivity|]. apply group_keys_In. eauto.
    + apply in_map_iff. exists r. split; [exact Er|]. apply get_group_In. tauto.
Qed.

(** X9. A city row has no latitude exactly when no row of the city has one,
    and no longitude exactly when no row of the city has one: a city is
    left without a coordinate only when all of its rows are. *)
Theorem city_missing_coordinates (df : DataFrame) (x : CityRow) :
  In x (create_total_customer_by_city_df df) ->
  (mean_lat x = None <->
   forall r, In r df -> customer_city r = Some (city x) -> geolocation_lat r = None) /\
  (mean_lng x = None <->
   forall r, In r df -> customer_city r = Some (city x) -> geolocation_lng r = None).
Proof.
  intros Hx. destruct (city_row_inv df x Hx) as [_ Ex].
  assert (Elat : mean_lat x
                 = mean_Q (map geolocation_lat (get_group customer_city (city x) df)))
    by (rewrite Ex at 1; reflexivity).
  assert (Elng : mean_lng x
                 = mean_Q (map geolocation_lng (get_group customer_city (city x) df)))
    by (rewrite Ex at 1; reflexivity).
  rewrite Elat, Elng, !mean_Q_missing. clear. split; split.
  - intros H r Hr Ec. destruct (geolocation_lat r) as [v|] eqn:E; [|reflexivity].
    exfalso. apply (H v), in_map_iff. exists r.
    split; [exact E | apply get_group_In; tauto].
  - intros H v Hv. apply in_map_iff in Hv. destruct Hv as [r [E Hr]].
    apply get_group_In in Hr. rewrite (H r) in E; [discriminate|tauto|tauto].
  - intros H r Hr Ec. destruct (geolocation_lng r) as [v|] eqn:E; [|reflexivity].
    exfalso. apply (H v), in_map_iff. exists r.
    split; [exact E | apply get_group_In; tauto].
  - intros H v Hv. apply in_map_iff in Hv. destruct Hv as [r [E Hr]].
    apply get_group_In in Hr. rewrite (H r) in E; [discriminate|tauto|tauto].
Qed.

End GroupedTables.

Lemma category_sales_totals_witness :
  NoDup (map category
           (@create_product_category_sales_df stable_sort
              [order_A; keyless_line; order_C])) /\
  map category
    (@create_product_category_sales_df stable_sort [order_A; keyless_line; order_C])
  = ["books"; "toys"]%string.
Proof.
  split; [|reflexivity].
  apply (@category_sales_totals stable_sort stable_sort_spec
           [order_A; keyless_line; order_C]).
Defined.

Lemma city_table_bounds_witness :
  NoDup (map city (@create_total_customer_by_city_df stable_sort
                     [order_A; order_B_other_city; order_C])).
Proof.
  apply (@city_table_bounds stable_sort stable_sort_spec
           [order_A; order_B_other_city; order_C]).
Defined.

Lemma city_missing_coordinates_witness :
  exists x,
    In x (@create_total_customer_by_city_df stable_sort
            [located_line "A" "X" "SP" None; located_line "B" "Y" "SP" None]) /\
    mean_lat x = None.
Proof.
  set (df := [located_line "A" "X" "SP" None; located_line "B" "Y" "SP" None]).
  set (x := agg_city ("SP"%string, get_group customer_city "SP" df)).
  assert (Hx : In x (@create_total_customer_by_city_df stable_sort df))
    by (left; reflexivity).
  exists x. split; [exact Hx|].
  apply (proj1 (@city_missing_coordinates stable_sort stable_sort_spec df x Hx)).
  intros r [<-|[<-|[]]] _; reflexivity.
Defined.

(** ** The five best and the five worst *)

Section Charts.

Context {A : Type} (name : A -> string) (count : A -> nat).

Lemma descending_app (l1 l2 : list A) :
  descending count (l1 ++ l2) ->
  forall x y, In x l1 -> In y l2 -> (count y <= count x)%nat.
Proof.
  unfold descending. induction l1 as [|h t IH]; intros H x y Hx Hy; [destruct Hx|].
  simpl in H. apply StronglySorted_inv in H. destruct H as [Ht Hall].
  destruct Hx as [<-|Hx].
  - rewrite Forall_forall in Hall. apply Hall, in_or_app. right. exact Hy.
  - apply IH; assumption.
Qed.

Lemma column_max_spec (l : list nat) (v : nat) :
  In v l ->
  exists m, column_max l = Some m /\ In m l /\ forall w, In w l -> (w <= m)%nat.
Proof.
  destruct l as [|h t]; [intros []|]. intros _.
  exists (fold_left Nat.max t h). split; [reflexivity|].
  clear v. revert h. induction t as [|a t IH]; intros h; cbn [fold_left].
  - split; [left; reflexivity|]. intros w [<-|[]]. lia.
  - destruct (IH (Nat.max h a)) as [Hin Hmax]. split.
    + destruct Hin as [E|Hin]; [|right; right; exact Hin].
      rewrite <- E. destruct (Nat.max_spec h a) as [[_ ->]|[_ ->]];
        [right; left; reflexivity | left; reflexivity].
    + intros w [E|[E|Hw]].
      * specialize (Hmax (Nat.max h a) (or_introl eq_refl)). lia.
      * specialize (Hmax (Nat.max h a) (or_introl eq_refl)). lia.
      * apply Hmax. right. exact Hw.
Qed.

Lemma column_min_spec (l : list nat) (v : nat) :
  In v l ->
  exists m, column_min l = Some m /\ In m l /\ forall w, In w l -> (m <= w)%nat.
Proof.
  destruct l as [|h t]; [intros []|]. intros _.
  exists (fold_left Nat.min t h). split; [reflexivity|].
  clear v. revert h. induction t as [|a t IH]; intros h; cbn [fold_left].
  - split; [left; reflexivity|]. intros w [<-|[]]. lia.
  - destruct (IH (Nat.min h a)) as [Hin Hmin]. split.
    + destruct Hin as [E|Hin]; [|right; right; exact Hin].
      rewrite <- E. destruct (Nat.min_spec h a) as [[_ ->]|[_ ->]];
        [left; reflexivity | right; left; reflexivity].
    + intros w [E|[E|Hw]].
      * specialize (Hmin (Nat.min h a) (or_introl eq_refl)). lia.
      * specialize (Hmin (Nat.min h a) (or_introl eq_refl)). lia.
      * apply Hmin. right. exact Hw.
Qed.

Lemma dict_set_fresh (d : Dict) (k v : string) :
  ~ In k (map fst d) -> dict_set d k v = d ++ [(k, v)].
Proof.
  induction d as [|[k' v'] d IH]; intros H; simpl; [reflexivity|].
  destruct (String.eqb_spec k k') as [->|_].
  - exfalso. apply H. left. reflexivity.
  - rewrite IH; [reflexivity|]. intros Hin. apply H. right. exact Hin.
Qed.

(** Over rows with distinct names the loop never overwrites an entry: the
    dictionary has one entry per row, in row order. *)
Lemma color_map_entries (extremum : list nat -> option nat) (marked plain : string)
    (temp_df : list A) :
  NoDup (map name temp_df) ->
  color_map_of name count extremum marked plain temp_df
  = map (fun x => (name x,
                   if equals_extremum (count x) (extremum (map count temp_df))
                   then marked else plain))
        temp_df.
Proof.
  unfold color_map_of. generalize (extremum (map count temp_df)) as m. intros m.
  set (colour := fun x => if equals_extremum (count x) m then marked else plain).
  assert (G : forall l acc,
    NoDup (map fst acc ++ map name l) ->
    fold_left (fun cm x => if equals_extremum (count x) m
                           then dict_set cm (name x) marked
                           else dict_set cm (name x) plain) l acc
    = acc ++ map (fun x => (name x, colour x)) l).
  { induction l as [|x l IH]; intros acc Hnd; cbn [fold_left map].
    - rewrite app_nil_r. reflexivity.
    - assert (Hfresh : ~ In (name x) (map fst acc)).
      { intros Hin. cbn [map] in Hnd. apply NoDup_remove_2 in Hnd.
        apply Hnd, in_or_app. left. exact Hin. }
      assert (E : (if equals_extremum (count x) m
                   then dict_set acc (name x) marked
                   else dict_set acc (name x) plain)
                  = acc ++ [(name x, colour x)]).
      { unfold colour. destruct (equals_extremum (count x) m);
          apply dict_set_fresh, Hfresh. }
      rewrite E, IH.
      + rewrite <- app_assoc. reflexivity.
      + rewrite map_app, <- app_assoc. exact Hnd. }
  intros Hnd. rewrite (G temp_df []); [reflexivity | exact Hnd].
Qed.

Lemma dict_get_entries (colour : A -> string) (l : list A) (x : A) :
  NoDup (map name l) -> In x l ->
  dict_get (map (fun y => (name y, colour y)) l) (name x) = Some (colour x).
Proof.
  induction l as [|h t IH]; intros Hnd Hx; [destruct Hx|].
  cbn [map dict_get]. inversion Hnd as [|? ? Hh Ht]; subst.
  destruct Hx as [->|Hx].
  - rewrite String.eqb_refl. reflexivity.
  - destruct (String.eqb_spec (name x) (name h)) as [E|_].
    + exfalso. apply Hh. rewrite <- E. apply in_map, Hx.
    + apply IH; assumption.
Qed.

Lemma NoDup_head (n : nat) (t : list A) :
  NoDup (map name t) -> NoDup (map name (df_head n t)).
Proof.
  intros H. unfold df_head. rewrite <- (firstn_skipn n t), map_app in H.
  apply NoDup_app_remove_r in H. exact H.
Qed.

Lemma NoDup_tail (n : nat) (t : list A) :
  NoDup (map name t) -> NoDup (map name (df_tail n t)).
Proof.
  intros H. unfold df_tail.
  rewrite <- (firstn_skipn (List.length t - n) t), map_app in H.
  apply NoDup_app_remove_l in H. exact H.
Qed.

(** In the head of a table in descending order a row is marked exactly when
    no row of the whole table has a greater count. *)
Lemma color_map_head (marked plain : string) (n : nat) (t : list A) :
  descending count t -> NoDup (map name t) ->
  let cm := color_map_of name count column_max marked plain (df_head n t) in
  map fst cm = map name (df_head n t) /\
  forall x, In x (df_head n t) ->
    dict_get cm (name x)
    = Some (if forallb (fun y => (count y <=? count x)%nat) t then marked else plain).
Proof.
  intros Hdesc Hnd cm. subst cm.
  rewrite (color_map_entries _ _ _ _ (NoDup_head n t Hnd)). split.
  - rewrite map_map. reflexivity.
  - intros x Hx.
    rewrite (dict_get_entries _ _ _ (NoDup_head n t Hnd) Hx). f_equal.
    destruct (column_max_spec (map count (df_head n t)) (count x) (in_map _ _ _ Hx))
      as [m [-> [Hm Hmax]]].
    assert (E : equals_extremum (count x) (Some m)
                = forallb (fun y => (count y <=? count x)%nat) t).
    { apply eq_true_iff_eq. cbn [equals_extremum].
      rewrite Nat.eqb_eq, forallb_forall. split.
      - intros <- y Hy. apply Nat.leb_le.
        unfold df_head in *. rewrite <- (firstn_skipn n t) in Hy, Hdesc.
        apply in_app_or in Hy. destruct Hy as [Hy|Hy].
        + apply Hmax, in_map, Hy.
        + apply (descending_app _ _ Hdesc); assumption.
      - intros Hall. apply in_map_iff in Hm. destruct Hm as [h [Eh Hh]].
        assert (Hht : In h t).
        { unfold df_head in Hh. rewrite <- (firstn_skipn n t).
          apply in_or_app. left. exact Hh. }
        specialize (Hall h Hht). apply Nat.leb_le in Hall.
        specialize (Hmax (count x) (in_map _ _ _ Hx)). lia. }
    rewrite E. reflexivity.
Qed.

(** In the tail of a table in descending order a row is marked exactly when
    no row of the whole table has a smaller count. *)
Lemma color_map_tail (marked plain : string) (n : nat) (t : list A) :
  descending count t -> NoDup (map name t) ->
  let cm := color_map_of name count column_min marked plain (df_tail n t) in
  map fst cm = map name (df_tail n t) /\
  forall x, In x (df_tail n t) ->
    dict_get cm (name x)
    = Some (if forallb (fun y => (count x <=? count y)%nat) t then marked else plain).
Proof.
  intros Hdesc Hnd cm. subst cm.
  rewrite (color_map_entries _ _ _ _ (NoDup_tail n t Hnd)). split.
  - rewrite map_map. reflexivity.
  - intros x Hx.
    rewrite (dict_get_entries _ _ _ (NoDup_tail n t Hnd) Hx). f_equal.
    destruct (column_min_spec (map count (df_tail n t)) (count x) (in_map _ _ _ Hx))
      as [m [-> [Hm Hmin]]].
    assert (E : equals_extremum (count x) (Some m)
                = forallb (fun y => (count x <=? count y)%nat) t).
    { apply eq_true_iff_eq. cbn [equals_extremum].
      rewrite Nat.eqb_eq, forallb_forall. split.
      - intros <- y Hy. apply Nat.leb_le.
        unfold df_tail in *.
        rewrite <- (firstn_skipn (List.length t - n) t) in Hy, Hdesc.
        apply in_app_or in Hy. destruct Hy as [Hy|Hy].
        + apply (descending_app _ _ Hdesc); assumption.
        + apply Hmin, in_map, Hy.
      - intros Hall. apply in_map_iff in Hm. destruct Hm as [h [Eh Hh]].
        assert (Hht : In h t).
        { unfold df_tail in Hh. rewrite <- (firstn_skipn (List.length t - n) t).
          apply in_or_app. right. exact Hh. }
        specialize (Hall h Hht). apply Nat.leb_le in Hall.
        specialize (Hmin (count x) (in_map _ _ _ Hx)). lia. }
    rewrite E. reflexivity.
Qed.

End Charts.

Section ChartRules.

Context {A : Type} (name : A -> string) (count : A -> nat).

Lemma forallb_le_false (f : A -> bool) (t : list A) (y : A) :
  In y t -> f y = false -> forallb f t = false.
Proof.
  intros Hy Hf. destruct (forallb f t) eqn:E; [|reflexivity].
  rewrite forallb_forall in E. rewrite (E y Hy) in Hf. discriminate.
Qed.

(** The chart of the first [n] rows of a table in descending order. *)
Lemma head_chart_rule (marked plain : string) (n : nat) (t : list A) :
  descending count t -> NoDup (map name t) ->
  let cm := color_map_of name count column_max marked plain (df_head n t) in
  List.length (df_head n t) = Nat.min n (List.length t) /\
  (forall x y, In x (df_head n t) -> In y (skipn n t) -> (count y <= count x)%nat) /\
  map fst cm = map name (df_head n t) /\
  (forall x, In x (df_head n t) ->
     (forall y, In y t -> (count y <= count x)%nat) ->
     dict_get cm (name x) = Some marked) /\
  (forall x y, In x (df_head n t) -> In y t -> (count x < count y)%nat ->
     dict_get cm (name x) = Some plain) /\
  (forall x rest, (1 <= n)%nat -> t = x :: rest -> dict_get cm (name x) = Some marked).
Proof.
  intros Hdesc Hnd cm.
  destruct (color_map_head name count marked plain n t Hdesc Hnd) as [Hkeys Hget].
  fold cm in Hkeys, Hget.
  assert (Hmark : forall x, In x (df_head n t) ->
     (forall y, In y t -> (count y <= count x)%nat) ->
     dict_get cm (name x) = Some marked).
  { intros x Hx Hall. rewrite (Hget x Hx).
    assert (E : forallb (fun y => (count y <=? count x)%nat) t = true).
    { apply forallb_forall. intros y Hy. apply Nat.leb_le, Hall, Hy. }
    rewrite E. reflexivity. }
  split; [apply length_firstn|]. split; [|split; [exact Hkeys|split; [exact Hmark|split]]].
  - intros x y Hx Hy. unfold df_head in Hx.
    rewrite <- (firstn_skipn n t) in Hdesc.
    apply (descending_app count _ _ Hdesc); assumption.
  - intros x y Hx Hy Hlt. rewrite (Hget x Hx).
    rewrite (forallb_le_false _ t y Hy); [reflexivity|].
    apply Nat.leb_gt, Hlt.
  - intros x rest Hn ->. apply Hmark.
    + unfold df_head. destruct n; [lia|]. left. reflexivity.
    + intros y [<-|Hy]; [lia|].
      unfold descending in Hdesc. apply StronglySorted_inv in Hdesc.
      destruct Hdesc as [_ Hall]. rewrite Forall_forall in Hall. apply Hall, Hy.
Qed.

(** The chart of the last [n] rows of a table in descending order. *)
Lemma tail_chart_rule (marked plain : string) (n : nat) (t : list A) :
  descending count t -> NoDup (map name t) ->
  let cm := color_map_of name count column_min marked plain (df_tail n t) in
  List.length (df_tail n t) = Nat.min n (List.length t) /\
  (forall x y, In x (df_tail n t) -> In y (firstn (List.length t - n) t) ->
     (count x <= count y)%nat) /\
  map fst cm = map name (df_tail n t) /\
  (forall x, In x (df_tail n t) ->
     (forall y, In y t -> (count x <= count y)%nat) ->
     dict_get cm (name x) = Some marked) /\
  (forall x y, In x (df_tail n t) -> In y t -> (count y < count x)%nat ->
     dict_get cm (name x) = Some plain) /\
  (forall x front, (1 <= n)%nat -> t = front ++ [x] ->
     dict_get cm (name x) = Some marked) /\
  ((List.length t <= n)%nat -> df_tail n t = t /\ df_head n t = t).
Proof.
  intros Hdesc Hnd cm.
  destruct (color_map_tail name count marked plain n t Hdesc Hnd) as [Hkeys Hget].
  fold cm in Hkeys, Hget.
  assert (Hmark : forall x, In x (df_tail n t) ->
     (forall y, In y t -> (count x <= count y)%nat) ->
     dict_get cm (name x) = Some marked).
  { intros x Hx Hall. rewrite (Hget x Hx).
    assert (E : forallb (fun y => (count x <=? count y)%nat) t = true).
    { apply forallb_forall. intros y Hy. apply Nat.leb_le, Hall, Hy. }
    rewrite E. reflexivity. }
  split; [|split; [|split; [exact Hkeys|split; [exact Hmark|split; [|split]]]]].
  - unfold df_tail. rewrite length_skipn. lia.
  - intros x y Hx Hy. unfold df_tail in Hx.
    rewrite <- (firstn_skipn (List.length t - n) t) in Hdesc.
    apply (descending_app count _ _ Hdesc); assumption.
  - intros x y Hx Hy Hlt. rewrite (Hget x Hx).
    rewrite (forallb_le_false _ t y Hy); [reflexivity|].
    apply Nat.leb_gt, Hlt.
  - intros x front Hn ->. apply Hmark.
    + unfold df_tail. rewrite length_app. cbn [List.length].
      replace (List.length front + 1 - n)%nat
        with (List.length front - (n - 1))%nat by lia.
      rewrite <- (firstn_skipn (List.length front - (n - 1)) front) at 2.
      rewrite <- app_assoc, skipn_app.
      rewrite length_firstn.
      replace (List.length front - (n - 1)
               - Nat.min (List.length front - (n - 1)) (List.length front))%nat
        with 0%nat by lia.
      apply in_or_app. right. rewrite skipn_0.
      apply in_or_app. right. left. reflexivity.
    + intros y Hy. apply in_app_or in Hy. destruct Hy as [Hy|[<-|[]]]; [|lia].
      apply (descending_app count _ _ Hdesc); [exact Hy | left; reflexivity].
  - intros Hlen. unfold df_tail, df_head.
    replace (List.length t - n)%nat with 0%nat by lia.
    rewrite skipn_0, firstn_all2 by exact Hlen. split; reflexivity.
Qed.

End ChartRules.

Section ProductAndCityCharts.

Context {sv : SortValues} {spec : SortValuesSpec sv}.

(** X10. The chart of the best categories (lines 152-160) shows the first five
    rows of the Product-Category Sales table, all of it when it has fewer.
    No category left out has more orders than one shown. The colour map has
    one entry per category shown; a category is dark exactly when no
    category of the whole table has more orders, so the first row is always
    dark, and so is every other row that ties with it. *)
Theorem best_products_chart (df : DataFrame) :
  let t := create_product_category_sales_df df in
  let cm := best_products_color_map t in
  List.length (df_head 5 t) = Nat.min 5 (List.length t) /\
  (forall x y, In x (df_head 5 t) -> In y (skipn 5 t) ->
     (total_order y <= total_order x)%nat) /\
  map fst cm = map category (df_head 5 t) /\
  (forall x, In x (df_head 5 t) ->
     (forall y, In y t -> (total_order y <= total_order x)%nat) ->
     dict_get cm (category x) = Some "#1C325B"%string) /\
  (forall x y, In x (df_head 5 t) -> In y t -> (total_order x < total_order y)%nat ->
     dict_get cm (category x) = Some "#B3C8CF"%string) /\
  (forall x rest, t = x :: rest -> dict_get cm (category x) = Some "#1C325B"%string).
Proof.
  intros t cm.
  destruct (head_chart_rule category total_order "#1C325B" "#B3C8CF" 5 t)
    as [H1 [H2 [H3 [H4 [H5 H6]]]]].
  - apply sort_values_sorted.
  - apply (Permutation_NoDup (Permutation_sym (category_table_keys df))).
    apply group_keys_NoDup.
  - repeat split; try assumption.
    intros x rest E. apply (H6 x rest); [lia | exact E].
Qed.

(** X11. The chart of the worst categories (lines 180-188) shows the last five
    rows of the table. No category left out has fewer orders than one shown.
    A category is red exactly when no category of the whole table has fewer
    orders, so the last row is always red. When the table has at most five
    rows both charts show all of it. *)
Theorem worst_products_chart (df : DataFrame) :
  let t := create_product_category_sales_df df in
  let cm := worst_products_color_map t in
  List.length (df_tail 5 t) = Nat.min 5 (List.length t) /\
  (forall x y, In x (df_tail 5 t) -> In y (firstn (List.length t - 5) t) ->
     (total_order x <= total_order y)%nat) /\
  map fst cm = map category (df_tail 5 t) /\
  (forall x, In x (df_tail 5 t) ->
     (forall y, In y t -> (total_order x <= total_order y)%nat) ->
     dict_get cm (category x) = Some "#FF004D"%string) /\
  (forall x y, In x (df_tail 5 t) -> In y t -> (total_order y < total_order x)%nat ->
     dict_get cm (category x) = Some "#B3C8CF"%string) /\
  (forall x front, t = front ++ [x] ->
     dict_get cm (category x) = Some "#FF004D"%string) /\
  ((List.length t <= 5)%nat -> df_tail 5 t = t /\ df_head 5 t = t).
Proof.
  intros t cm.
  destruct (tail_chart_rule category total_order "#FF004D" "#B3C8CF" 5 t)
    as [H1 [H2 [H3 [H4 [H5 [H6 H7]]]]]].
  - apply sort_values_sorted.
  - apply (Permutation_NoDup (Permutation_sym (category_table_keys df))).
    apply group_keys_NoDup.
  - repeat split; try assumption; try (apply H7; assumption).
    intros x front E. apply (H6 x front); [lia | exact E].
Qed.

(** X12. The chart of the cities (lines 211-217) shows the first five rows of
    the Customer-by-City table; a city is dark exactly when no city of the
    whole table has more customers. *)
Theorem city_chart (df : DataFrame) :
  let t := create_total_customer_by_city_df df in
  let cm := city_color_map t in
  List.length (df_head 5 t) = Nat.min 5 (List.length t) /\
  (forall x y, In x (df_head 5 t) -> In y (skipn 5 t) ->
     (total_customer y <= total_customer x)%nat) /\
  map fst cm = map city (df_head 5 t) /\
  (forall x, In x (df_head 5 t) ->
     (forall y, In y t -> (total_customer y <= total_customer x)%nat) ->
     dict_get cm (city x) = Some "#1C325B"%string) /\
  (forall x y, In x (df_head 5 t) -> In y t ->
     (total_customer x < total_customer y)%nat ->
     dict_get cm (city x) = Some "#B3C8CF"%string) /\
  (forall x rest, t = x :: rest -> dict_get cm (city x) = Some "#1C325B"%string).
Proof.
  intros t cm.
  destruct (head_chart_rule city total_customer "#1C325B" "#B3C8CF" 5 t)
    as [H1 [H2 [H3 [H4 [H5 H6]]]]].
  - apply sort_values_sorted.
  - apply (Permutation_NoDup (Permutation_sym (city_table_keys df))).
    apply group_keys_NoDup.
  - repeat split; try assumption.
    intros x rest E. apply (H6 x rest); [lia | exact E].
Qed.

End ProductAndCityCharts.

Lemma best_products_chart_witness :
  best_products_color_map
    (@create_product_category_sales_df stable_sort [order_A; order_B; order_C])
  = [("toys", "#1C325B"); ("books", "#B3C8CF")]%string /\
  map fst (best_products_color_map
             (@create_product_category_sales_df stable_sort [order_A; order_B; order_C]))
  = map category
      (df_head 5 (@create_product_category_sales_df stable_sort
                    [order_A; order_B; order_C])).
Proof.
  split; [reflexivity|].
  apply (@best_products_chart stable_sort stable_sort_spec [order_A; order_B; order_C]).
Defined.

Lemma worst_products_chart_witness :
  worst_products_color_map
    (@create_product_category_sales_df stable_sort [order_A; order_B; order_C])
  = [("toys", "#B3C8CF"); ("books", "#FF004D")]%string /\
  map fst (worst_products_color_map
             (@create_product_category_sales_df stable_sort [order_A; order_B; order_C]))
  = map category
      (df_tail 5 (@create_product_category_sales_df stable_sort
                    [order_A; order_B; order_C])).
Proof.
  split; [reflexivity|].
  apply (@worst_products_chart stable_sort stable_sort_spec [order_A; order_B; order_C]).
Defined.

Lemma city_chart_witness :
  city_color_map
    (@create_total_customer_by_city_df stable_sort [order_A; order_B; order_C])
  = [("RJ", "#1C325B"); ("SP", "#1C325B")]%string /\
  map fst (city_color_map
             (@create_total_customer_by_city_df stable_sort [order_A; order_B; order_C]))
  = map city
      (df_head 5 (@create_total_customer_by_city_df stable_sort
                    [order_A; order_B; order_C])).
Proof.
  split; [reflexivity|].
  apply (@city_chart stable_sort stable_sort_spec [order_A; order_B; order_C]).
Defined.

(** ** The RFM charts *)

Section InsertionSortBy.

Context {A : Type} (leb : A -> A -> bool).

Lemma insert_by_perm (x : A) (l : list A) :
  Permutation (insert_by leb x l) (x :: l).
Proof.
  induction l as [|h t IH]; simpl; [reflexivity|].
  destruct (leb x h); [reflexivity|].
  rewrite IH. apply perm_swap.
Qed.

Lemma insert_by_sorted (x : A) (l : list A) :
  (forall a b, leb a b = true \/ leb b a = true) ->
  (forall a b c, leb a b = true -> leb b c = true -> leb a c = true) ->
  StronglySorted (fun a b => leb a b = true) l ->
  StronglySorted (fun a b => leb a b = true) (insert_by leb x l).
Proof.
  intros Htot Htrans. induction 1 as [|h t Ht IH Hall]; simpl.
  - repeat constructor.
  - destruct (leb x h) eqn:E.
    + constructor; [constructor; assumption|].
      constructor; [exact E|].
      eapply Forall_impl; [|exact Hall]. intros a Ha. exact (Htrans _ _ _ E Ha).
    + constructor; [exact IH|].
      apply (Permutation_Forall (Permutation_sym (insert_by_perm x t))).
      constructor; [|exact Hall].
      destruct (Htot x h) as [H|H]; [congruence | exact H].
Qed.

End InsertionSortBy.

#[export] Instance insertion_sort_by_spec : SortValuesBySpec insertion_sort_by.
Proof.
  split; intros A leb l; unfold sort_values_by, insertion_sort_by.
  - induction l as [|x l IH]; simpl; [reflexivity|].
    rewrite insert_by_perm, IH. reflexivity.
  - intros Htot Htrans. induction l as [|x l IH]; simpl; [constructor|].
    apply insert_by_sorted; assumption.
Qed.

Lemma missing_last_total {V : Type} (leb : V -> V -> bool) (a b : option V) :
  (forall u v, leb u v = true \/ leb v u = true) ->
  missing_last leb a b = true \/ missing_last leb b a = true.
Proof.
  intros H. destruct a as [a|], b as [b|]; simpl; auto.
Qed.

Lemma missing_last_trans {V : Type} (leb : V -> V -> bool) (a b c : option V) :
  (forall u v w, leb u v = true -> leb v w = true -> leb u w = true) ->
  missing_last leb a b = true -> missing_last leb b c = true ->
  missing_last leb a c = true.
Proof.
  intros H. destruct a as [a|], b as [b|], c as [c|]; simpl;
    try discriminate; auto. apply H.
Qed.

Lemma rfm_before_total (col : RfmColumn) (x y : RfmRow) :
  rfm_before col x y = true \/ rfm_before col y x = true.
Proof.
  destruct col; unfold rfm_before; apply missing_last_total.
  - intros u v. rewrite !Z.leb_le. lia.
  - intros u v. rewrite !Nat.leb_le. lia.
  - intros u v. rewrite !Qle_bool_iff.
    destruct (Qlt_le_dec u v) as [H|H];
      [right; apply Qlt_le_weak, H | left; exact H].
Qed.

Lemma rfm_before_trans (col : RfmColumn) (x y z : RfmRow) :
  rfm_before col x y = true -> rfm_before col y z = true ->
  rfm_before col x z = true.
Proof.
  destruct col; unfold rfm_before; apply missing_last_trans.
  - intros u v w. rewrite !Z.leb_le. lia.
  - intros u v w. rewrite !Nat.leb_le. lia.
  - intros u v w. rewrite !Qle_bool_iff. intros H1 H2. exact (Qle_trans _ _ _ H2 H1).
Qed.

(** When some row has a customer id no value of the RFM table is missing. *)
Lemma rfm_values_present (df : DataFrame) (x : RfmRow) :
  some_customer df -> In x (create_rfm_df df) ->
  exists days f m, recency x = Some days /\ frequency x = Some f /\ monetary x = Some m.
Proof.
  intros Hsome Hx. destruct (rfm_row_inv df x Hsome Hx) as [c [_ Hx']].
  cbv zeta in Hx'. destruct Hx' as [[r Hr] [Hrec [Hf Hm]]].
  destruct (max_ts_spec _ _ (in_map order_purchase_timestamp _ _ Hr)) as [m [Em _]].
  rewrite Em in Hrec. cbn [option_map] in Hrec.
  do 3 eexists. split; [exact Hrec|]. split; [exact Hf | exact Hm].
Qed.

Section RfmCharts.

Context {sb : SortValuesBy} {spec : SortValuesBySpec sb}.

(** X13. Each of the three RFM charts (lines 255-258) shows five rows of
    the RFM table, all of them when there are fewer, and leaves the table
    itself as it is. The rows shown are in the order of the chart's column,
    missing values last, and no row left out stands before one shown. When
    some row of the frame has a customer id no value is missing, and then no
    customer left out has a smaller recency in the first chart, a greater
    frequency in the second, or a greater monetary in the third, than a
    customer shown. *)
Theorem rfm_charts (df : DataFrame) (col : RfmColumn) :
  let chart := rfm_chart col (create_rfm_df df) in
  List.length chart = Nat.min 5 (List.length (create_rfm_df df)) /\
  StronglySorted (fun x y => rfm_before col x y = true) chart /\
  exists left_out,
    Permutation (chart ++ left_out) (create_rfm_df df) /\
    (forall x y, In x chart -> In y left_out -> rfm_before col x y = true) /\
    (some_customer df ->
     forall x y, In x chart -> In y left_out ->
       match col with
       | Recency => exists a b, recency x = Some a /\ recency y = Some b /\ a <= b
       | Frequency =>
           exists a b, frequency x = Some a /\ frequency y = Some b /\ (b <= a)%nat
       | Monetary =>
           exists a b, monetary x = Some a /\ monetary y = Some b /\ (b <= a)%Q
       end).
Proof.
  intros chart. subst chart. unfold rfm_chart, df_head.
  set (sorted := sort_values_by RfmRow (rfm_before col) (create_rfm_df df)).
  assert (P : Permutation sorted (create_rfm_df df)) by apply sort_values_by_perm.
  assert (S : StronglySorted (fun x y => rfm_before col x y = true) sorted).
  { apply sort_values_by_sorted;
      [apply rfm_before_total | apply rfm_before_trans]. }
  assert (D : forall l1 l2 : list RfmRow,
    StronglySorted (fun x y => rfm_before col x y = true) (l1 ++ l2) ->
    StronglySorted (fun x y => rfm_before col x y = true) l1 /\
    forall x y, In x l1 -> In y l2 -> rfm_before col x y = true).
  { induction l1 as [|h t IH]; intros l2 H.
    - split; [constructor | intros x y []].
    - simpl in H. apply StronglySorted_inv in H. destruct H as [Ht Hall].
      destruct (IH l2 Ht) as [IH1 IH2]. rewrite Forall_forall in Hall. split.
      + constructor; [exact IH1|]. apply Forall_forall. intros a Ha.
        apply Hall, in_or_app. left. exact Ha.
      + intros x y [<-|Hx] Hy; [apply Hall, in_or_app; right; exact Hy|].
        apply IH2; assumption. }
  rewrite <- (firstn_skipn 5 sorted) in S. destruct (D _ _ S) as [S1 S2].
  split; [|split; [exact S1|]].
  - rewrite length_firstn, (Permutation_length P). reflexivity.
  - exists (skipn 5 sorted). split; [rewrite firstn_skipn; exact P|].
    split; [exact S2|].
    intros Hsome x y Hx Hy. specialize (S2 x y Hx Hy).
    assert (Hx' : In x (create_rfm_df df)).
    { apply (Permutation_in _ P). rewrite <- (firstn_skipn 5 sorted).
      apply in_or_app. left. exact Hx. }
    assert (Hy' : In y (create_rfm_df df)).
    { apply (Permutation_in _ P). rewrite <- (firstn_skipn 5 sorted).
      apply in_or_app. right. exact Hy. }
    destruct (rfm_values_present df x Hsome Hx') as [xa [xf [xm [E1 [E2 E3]]]]].
    destruct (rfm_values_present df y Hsome Hy') as [ya [yf [ym [F1 [F2 F3]]]]].
    destruct col; unfold rfm_before in S2.
    + rewrite E1, F1 in S2. cbn [missing_last] in S2. apply Z.leb_le in S2. eauto.
    + rewrite E2, F2 in S2. cbn [missing_last] in S2. apply Nat.leb_le in S2.
      exists xf, yf. tauto.
    + rewrite E3, F3 in S2. cbn [missing_last] in S2. apply Qle_bool_iff in S2.
      exists xm, ym. tauto.
Qed.

End RfmCharts.

Lemma rfm_charts_witness :
  map rfm_customer_unique_id
      (@rfm_chart insertion_sort_by Monetary (create_rfm_df [order_A; order_B; order_C]))
  = [Some "Y"; Some "X"]%string /\
  List.length
    (@rfm_chart insertion_sort_by Recency (create_rfm_df [order_A; order_B; order_C]))
  = Nat.min 5 (List.length (create_rfm_df [order_A; order_B; order_C])).
Proof.
  split; [reflexivity|].
  apply (@rfm_charts insertion_sort_by insertion_sort_by_spec
           [order_A; order_B; order_C] Recency).
Defined.

(** X14. Two rows of the RFM table never share a label: rows at different
    positions below 95420 have different labels. *)
Theorem rfm_labels_distinct (df : DataFrame) (i j : nat) (x y : RfmRow) (l : string) :
  nth_error (create_rfm_df df) i = Some x ->
  nth_error (create_rfm_df df) j = Some y ->
  customer_label_id x = Some l -> customer_label_id y = Some l ->
  i = j /\ x = y.
Proof.
  intros Hi Hj Hx Hy.
  rewrite (rfm_label_at df i x Hi) in Hx. rewrite (rfm_label_at df j y Hj) in Hy.
  unfold label_series in Hx, Hy.
  destruct (N.of_nat i <? label_count)%N; [|discriminate].
  destruct (N.of_nat j <? label_count)%N; [|discriminate].
  assert (E : str (N.of_nat i) = str (N.of_nat j)).
  { rewrite <- Hy in Hx. injection Hx as Hs. exact Hs. }
  apply str_inj in E. assert (i = j) by lia. subst j.
  split; [reflexivity | congruence].
Qed.

Lemma rfm_labels_distinct_witness :
  exists x, nth_error (create_rfm_df [order_A; order_B; order_C]) 1 = Some x /\
            customer_label_id x = Some "C1"%string.
Proof.
  eexists. split; [reflexivity|].
  assert (H : nth_error (create_rfm_df [order_A; order_B; order_C]) 1
              = Some (rfm_row (1%N, ("Y"%string,
                         get_group customer_unique_id "Y" [order_A; order_B; order_C]))))
    by reflexivity.
  destruct (rfm_labels_distinct [order_A; order_B; order_C] 1 1 _ _ "C1"%string
              H H eq_refl eq_refl) as [_ _].
  reflexivity.
Defined.
